(** * Flowlytix subscription server: the paginated subscription query
      and the application lifespan manager.

    Shallow embedding of [subscription-server/main_fixed.py]
    ([get_subscriptions_paginated], [health_check], [lifespan]) and of
    [subscription-server/main.py] ([lifespan]).

    Python [int] is [Z]; [str] is [string], read as its UTF-8 bytes.
    Every field of a generated record is ASCII, and [lower] maps the 26
    ASCII capitals.  A search term with a code point above 127 matches no
    record in Python (its lower-cased form keeps a code point above 127,
    or, for the Kelvin sign, becomes a k, which no generated field has)
    and none here (its bytes above 127 are left as they are). *)

From Stdlib Require Import ZArith List Bool Lia Ascii String.
From Stdlib Require Import DecimalString DecimalZ Sorted QArith Qround.
Import ListNotations.

Open Scope string_scope.
Open Scope Z_scope.

(** ** Python string primitives *)

Module PyStr.

(** [str(z)] for an [int]. *)
Definition str (z : Z) : string :=
  NilEmpty.string_of_int (Z.to_int z).

Fixpoint zeros (n : nat) : string :=
  match n with
  | O => ""
  | S n' => String "0" (zeros n')
  end.

(** [format(z, "0<w>d")]: the sign first, then zeros up to width [w]. *)
Definition format_0d (w : nat) (z : Z) : string :=
  if z <? 0
  then let d := str (- z) in
       String "-" (zeros (w - 1 - String.length d) ++ d)
  else let d := str z in
       zeros (w - String.length d) ++ d.

Definition lower_ascii (c : ascii) : ascii :=
  let n := N_of_ascii c in
  if ((65 <=? n) && (n <=? 90))%N then ascii_of_N (n + 32) else c.

(** [s.lower()]. *)
Fixpoint lower (s : string) : string :=
  match s with
  | EmptyString => EmptyString
  | String c s' => String (lower_ascii c) (lower s')
  end.

(** [hay.startswith(needle)]. *)
Fixpoint startswith (needle hay : string) : bool :=
  match needle, hay with
  | EmptyString, _ => true
  | String _ _, EmptyString => false
  | String a n', String b h' => Ascii.eqb a b && startswith n' h'
  end.

(** [needle in hay]. *)
Fixpoint str_in (needle hay : string) : bool :=
  startswith needle hay
  || match hay with
     | EmptyString => false
     | String _ h' => str_in needle h'
     end.

(** Python truthiness of an [Optional[str]]: [None] and [""] are falsy. *)
Definition truthy (o : option string) : option string :=
  match o with
  | Some EmptyString => None
  | other => other
  end.

End PyStr.

(** ** Python sequence primitives *)

Module PySeq.

(** [range(a, b)]. *)
Definition range (a b : Z) : list Z :=
  map (fun k => a + Z.of_nat k) (seq 0 (Z.to_nat (b - a))).

(** Normalisation of one slice bound against a length: a negative bound
    counts from the end, and both are clamped into [0, len]. *)
Definition clamp (len i : Z) : Z :=
  if i <? 0 then Z.max 0 (i + len) else Z.min i len.

(** [l[start:stop]] with step 1. *)
Definition slice {A} (l : list A) (start stop : Z) : list A :=
  let len := Z.of_nat (List.length l) in
  let s := clamp len start in
  let e := clamp len stop in
  firstn (Z.to_nat (e - s)) (skipn (Z.to_nat s) l).

End PySeq.

(** ** Data model *)

Record SubscriptionRecord := {
  id : string;
  customerName : string;
  customerId : string;
  licenseKey : string;
  tier : string;
  status : string;
  features : list string;
  maxDevices : Z;
  devicesConnected : Z;
  startsAt : string;
  expiresAt : string;
  gracePeriodDays : Z;
  lastActivity : string;
  lastSyncAt : string;
  createdAt : string;
  updatedAt : string;
  notes : string
}.

(** The dict built for loop index [i] in the list comprehension. *)
Definition mock_subscription (i : Z) : SubscriptionRecord := {|
  id := PyStr.str i;
  customerName := "Customer " ++ PyStr.str i;
  customerId := "cust_" ++ PyStr.str i;
  licenseKey := "FL-" ++ PyStr.format_0d 4 i ++ "-"
                  ++ PyStr.format_0d 4 (i * 2) ++ "-"
                  ++ PyStr.format_0d 4 (i * 3);
  tier := if i mod 3 =? 0 then "premium"
          else if i mod 2 =? 0 then "basic" else "pro";
  status := if negb (i mod 4 =? 0) then "active"
            else if i mod 6 =? 0 then "expired" else "suspended";
  features := if i mod 2 =? 0 then ["core"; "analytics"] else ["core"];
  maxDevices := if i mod 3 =? 0 then 5 else 3;
  devicesConnected := i mod 5 + 1;
  startsAt := "2024-01-" ++ PyStr.format_0d 2 (15 + i mod 15) ++ "T10:00:00Z";
  expiresAt := "2024-12-" ++ PyStr.format_0d 2 (15 + i mod 15) ++ "T10:00:00Z";
  gracePeriodDays := 30;
  lastActivity := "2024-01-" ++ PyStr.format_0d 2 (20 + i mod 10) ++ "T14:30:00Z";
  lastSyncAt := "2024-01-" ++ PyStr.format_0d 2 (20 + i mod 10) ++ "T14:30:00Z";
  createdAt := "2024-01-" ++ PyStr.format_0d 2 (15 + i mod 15) ++ "T10:00:00Z";
  updatedAt := "2024-01-" ++ PyStr.format_0d 2 (20 + i mod 10) ++ "T14:30:00Z";
  notes := "Test subscription " ++ PyStr.str i
|}.

Definition mock_subscriptions : list SubscriptionRecord :=
  map mock_subscription (PySeq.range 1 201).

Record PaginatedResponse := {
  data : list SubscriptionRecord;
  totalCount : Z;
  page : Z;
  pageSize : Z;
  totalPages : Z
}.

Record Envelope := {
  success : bool;
  payload : PaginatedResponse;
  message : string
}.

(** ** The query *)

Definition status_matches (st : string) (s : SubscriptionRecord) : bool :=
  String.eqb (status s) st.

Definition search_matches (q : string) (s : SubscriptionRecord) : bool :=
  PyStr.str_in (PyStr.lower q) (PyStr.lower (customerName s))
  || PyStr.str_in (PyStr.lower q) (PyStr.lower (licenseKey s)).

(** The value of [filtered_subscriptions] after the two [if] blocks. *)
Definition filtered_subscriptions (status_arg search_arg : option string)
  : list SubscriptionRecord :=
  let filtered := mock_subscriptions in
  let filtered :=
    match PyStr.truthy status_arg with
    | Some st => filter (status_matches st) filtered
    | None => filtered
    end in
  match PyStr.truthy search_arg with
  | Some q => filter (search_matches q) filtered
  | None => filtered
  end.

Inductive PyError :=
| RequestValidationError
| ZeroDivisionError.

Inductive result (A : Type) :=
| Ok (a : A)
| Err (e : PyError).
Arguments Ok {A} a.
Arguments Err {A} e.

(** The function body, on arguments that passed (or skipped) the [Query]
    validation.  [//] is floor division and raises on a zero divisor. *)
Definition paginate_body (page_arg page_size : Z)
    (status_arg search_arg : option string) : result Envelope :=
  let filtered := filtered_subscriptions status_arg search_arg in
  let total_items := Z.of_nat (List.length filtered) in
  if page_size =? 0 then Err ZeroDivisionError else
  let total_pages := (total_items + page_size - 1) / page_size in
  let start_index := (page_arg - 1) * page_size in
  let end_index := start_index + page_size in
  let paginated := PySeq.slice filtered start_index end_index in
  Ok {| success := true;
        payload := {| data := paginated;
                      totalCount := total_items;
                      page := page_arg;
                      pageSize := page_size;
                      totalPages := total_pages |};
        message := "Retrieved "
                     ++ PyStr.str (Z.of_nat (List.length paginated))
                     ++ " subscriptions" |}.

(** [Query(1, ge=1)] and [Query(10, ge=1, le=100)]. *)
Definition query_valid (page_arg page_size : Z) : bool :=
  (1 <=? page_arg) && (1 <=? page_size) && (page_size <=? 100).

(** The endpoint: parameter validation, then the body. *)
Definition list_subscriptions (page_arg page_size : Z)
    (status_arg search_arg : option string) : result Envelope :=
  if query_valid page_arg page_size
  then paginate_body page_arg page_size status_arg search_arg
  else Err RequestValidationError.

Definition ids (l : list SubscriptionRecord) : list string := map id l.

(** ** Effects: ambient state, logging and exceptions *)

Module Eff.

Inductive Level := INFO | ERROR.

Record LogRecord := {
  level : Level;
  event : string;
  kv : list (string * string)
}.

(** What a handler or a lifecycle hook could read or write outside its
    arguments: the [settings] object, the wall clock, the log stream and
    the database collaborator's connection. *)
Record World := {
  settings_version : string;
  settings_environment : string;
  now_isoformat : string;
  log : list LogRecord;
  db_connected : bool
}.

(** A raised value: whether it is an instance of [Exception] (and not only
    of [BaseException]), and its [str]. *)
Record PyExc := {
  isinstance_Exception : bool;
  exc_str : string
}.

Inductive Outcome (A : Type) :=
| Returned (a : A)
| Raised (e : PyExc).
Arguments Returned {A} a.
Arguments Raised {A} e.

Definition M (A : Type) : Type := World -> Outcome A * World.

Definition ret {A} (a : A) : M A := fun w => (Returned a, w).

Definition bind {A B} (m : M A) (k : A -> M B) : M B :=
  fun w =>
    match m w with
    | (Returned a, w') => k a w'
    | (Raised e, w') => (Raised e, w')
    end.

Definition raise {A} (e : PyExc) : M A := fun w => (Raised e, w).

(** [try: body  except Exception as e: handler e]. *)
Definition try_except_Exception {A} (body : M A) (handler : PyExc -> M A)
  : M A :=
  fun w =>
    match body w with
    | (Returned a, w') => (Returned a, w')
    | (Raised e, w') =>
        if isinstance_Exception e then handler e w' else (Raised e, w')
    end.

(** The world once record [r] is written to the log stream. *)
Definition logged (r : LogRecord) (w : World) : World :=
  {| settings_version := settings_version w;
     settings_environment := settings_environment w;
     now_isoformat := now_isoformat w;
     log := (log w ++ [r])%list;
     db_connected := db_connected w |}.

Definition emit (r : LogRecord) : M unit :=
  fun w => (Returned tt, logged r w).

(** The world a computation leaves behind. *)
Definition exec {A} (m : M A) (w : World) : World := snd (m w).

Definition get_world : M World := fun w => (Returned w, w).

(** A generator suspended at its [yield]: the value handed back is the
    code that runs when the generator is resumed. *)
Definition yield_then (rest : M unit) : M (M unit) := ret rest.

(** [async with cm: body] for a context manager made by
    [asynccontextmanager] from a generator whose [yield] stands outside
    every [try]: an exception of the body is thrown in at the [yield] and
    leaves the generator at once. *)
Definition async_with (cm : M (M unit)) (body : M unit) : M unit :=
  bind cm (fun on_exit => bind body (fun _ => on_exit)).

End Eff.

Declare Scope eff_scope.
Delimit Scope eff_scope with eff.
Notation "x <- m ;; k" := (Eff.bind m (fun x => k))
  (at level 61, m at next level, right associativity) : eff_scope.
Notation "m ;; k" := (Eff.bind m (fun _ => k))
  (at level 61, right associativity) : eff_scope.

(** ** Handlers of [main_fixed.py] in the effect monad *)

(** *** The object store

    The handler again, this time with the objects it creates: every dict
    and every list is an object in a store, names and list items hold
    references, and a comprehension or a slice makes a new list of the
    references it keeps.  A call starts in whatever store earlier code
    left. *)

Module Heap.

Inductive Obj :=
| DictObj (r : SubscriptionRecord)
| ListObj (items : list nat).

Definition Store := list Obj.

(** [Stuck]: a reference that holds no object of the expected kind. *)
Inductive Outcome (A : Type) :=
| Done (a : A)
| Failed (e : PyError)
| Stuck.
Arguments Done {A} a.
Arguments Failed {A} e.
Arguments Stuck {A}.

Definition H (A : Type) : Type := Store -> Outcome A * Store.

Definition ret {A} (a : A) : H A := fun s => (Done a, s).

Definition bind {A B} (m : H A) (k : A -> H B) : H B :=
  fun s =>
    match m s with
    | (Done a, s') => k a s'
    | (Failed e, s') => (Failed e, s')
    | (Stuck, s') => (Stuck, s')
    end.

Definition fail {A} (e : PyError) : H A := fun s => (Failed e, s).

(** A new object, at the next free reference. *)
Definition new (o : Obj) : H nat :=
  fun s => (Done (List.length s), (s ++ [o])%list).

Definition get_list (ref : nat) : H (list nat) :=
  fun s =>
    match nth_error s ref with
    | Some (ListObj items) => (Done items, s)
    | _ => (Stuck, s)
    end.

Definition get_dict (ref : nat) : H SubscriptionRecord :=
  fun s =>
    match nth_error s ref with
    | Some (DictObj r) => (Done r, s)
    | _ => (Stuck, s)
    end.

(** The items of [[e(x) for x in xs if c(x)]], in order: [f x] is
    [Some (e x)] when [c x] holds and [None] otherwise. *)
Fixpoint comprehension {A B} (f : A -> H (option B)) (xs : list A)
  : H (list B) :=
  match xs with
  | [] => ret []
  | x :: xs' =>
      bind (f x) (fun o =>
      bind (comprehension f xs') (fun rest =>
      ret (match o with Some b => b :: rest | None => rest end)))
  end.

Definition of_result {A} (r : result A) : Outcome A :=
  match r with
  | Ok a => Done a
  | Err e => Failed e
  end.

End Heap.

Declare Scope heap_scope.
Delimit Scope heap_scope with heap.
Notation "x <- m ;; k" := (Heap.bind m (fun x => k))
  (at level 61, m at next level, right associativity) : heap_scope.

(** The dict the handler returns, its [data] entry a reference. *)
Record ResponseDict := {
  r_success : bool;
  r_data : nat;
  r_totalCount : Z;
  r_page : Z;
  r_pageSize : Z;
  r_totalPages : Z;
  r_message : string
}.

(** [[ {...} for i in range(1, 201) ]]. *)
Definition build_mock_subscriptions : Heap.H nat :=
  (items <- Heap.comprehension
              (fun i => d <- Heap.new (Heap.DictObj (mock_subscription i)) ;;
                        Heap.ret (Some d))
              (PySeq.range 1 201) ;;
   Heap.new (Heap.ListObj items))%heap.

(** [[s for s in filtered_subscriptions if keep(s)]]. *)
Definition filter_list (keep : SubscriptionRecord -> bool) (ref : nat)
  : Heap.H nat :=
  (src <- Heap.get_list ref ;;
   items <- Heap.comprehension
              (fun d => r <- Heap.get_dict d ;;
                        Heap.ret (if keep r then Some d else None))
              src ;;
   Heap.new (Heap.ListObj items))%heap.

(** The body of [get_subscriptions_paginated], statement by statement. *)
Definition handler_body (page_arg page_size : Z)
    (status_arg search_arg : option string) : Heap.H ResponseDict :=
  (mock_subscriptions_ref <- build_mock_subscriptions ;;
   filtered_ref <-
     match PyStr.truthy status_arg with
     | Some st => filter_list (status_matches st) mock_subscriptions_ref
     | None => Heap.ret mock_subscriptions_ref
     end ;;
   filtered_ref <-
     match PyStr.truthy search_arg with
     | Some q => filter_list (search_matches q) filtered_ref
     | None => Heap.ret filtered_ref
     end ;;
   filtered <- Heap.get_list filtered_ref ;;
   let total_items := Z.of_nat (List.length filtered) in
   if page_size =? 0 then Heap.fail ZeroDivisionError else
   let total_pages := (total_items + page_size - 1) / page_size in
   let start_index := (page_arg - 1) * page_size in
   let end_index := start_index + page_size in
   paginated_ref <-
     Heap.new (Heap.ListObj (PySeq.slice filtered start_index end_index)) ;;
   paginated <- Heap.get_list paginated_ref ;;
   Heap.ret {| r_success := true;
               r_data := paginated_ref;
               r_totalCount := total_items;
               r_page := page_arg;
               r_pageSize := page_size;
               r_totalPages := total_pages;
               r_message := "Retrieved "
                              ++ PyStr.str (Z.of_nat (List.length paginated))
                              ++ " subscriptions" |})%heap.

(** The framework turning the returned dict into the JSON document: it
    follows the [data] reference and the references of its items. *)
Definition encode (d : ResponseDict) : Heap.H Envelope :=
  (items <- Heap.get_list (r_data d) ;;
   records <- Heap.comprehension
                (fun ref => r <- Heap.get_dict ref ;; Heap.ret (Some r))
                items ;;
   Heap.ret {| success := r_success d;
               payload := {| data := records;
                             totalCount := r_totalCount d;
                             page := r_page d;
                             pageSize := r_pageSize d;
                             totalPages := r_totalPages d |};
               message := r_message d |})%heap.

(** [get_subscriptions_paginated] as the framework serves it: parameter
    validation, the body, the response document. *)
Definition get_subscriptions_paginated (page_arg page_size : Z)
    (status_arg search_arg : option string) : Heap.H Envelope :=
  if query_valid page_arg page_size
  then (d <- handler_body page_arg page_size status_arg search_arg ;;
        encode d)%heap
  else Heap.fail RequestValidationError.

(** A handler that is not the repository's: it serves whatever list an
    earlier request left at reference 0. *)
Definition serve_shared_list : Heap.H (list SubscriptionRecord) :=
  (items <- Heap.get_list 0 ;;
   Heap.comprehension
     (fun ref => r <- Heap.get_dict ref ;; Heap.ret (Some r)) items)%heap.

Record HealthStatus := {
  health_status : string;
  health_version : string;
  health_environment : string;
  health_timestamp : string
}.

(** [health_check] of [main_fixed.py]: reads [settings] and the clock. *)
Definition health_check : Eff.M HealthStatus :=
  (w <- Eff.get_world ;;
   Eff.ret {| health_status := "healthy";
              health_version := Eff.settings_version w;
              health_environment := Eff.settings_environment w;
              health_timestamp := Eff.now_isoformat w |})%eff.

(** ** Lifespan managers *)

(** [logging.Logger]: one formatted message per record. *)
Module Logging.
Definition info (msg : string) : Eff.M unit :=
  Eff.emit {| Eff.level := Eff.INFO; Eff.event := msg; Eff.kv := [] |}.
Definition error (msg : string) : Eff.M unit :=
  Eff.emit {| Eff.level := Eff.ERROR; Eff.event := msg; Eff.kv := [] |}.
End Logging.

(** [structlog]: an event name and keyword fields. *)
Module Structlog.
Definition info (ev : string) (fields : list (string * string))
  : Eff.M unit :=
  Eff.emit {| Eff.level := Eff.INFO; Eff.event := ev; Eff.kv := fields |}.
Definition error (ev : string) (fields : list (string * string))
  : Eff.M unit :=
  Eff.emit {| Eff.level := Eff.ERROR; Eff.event := ev; Eff.kv := fields |}.
End Structlog.

Module MainFixed.
Section Lifespan.

(** The database collaborator ([app.core.database]). *)
Variable init_database : Eff.M unit.
Variable close_database : Eff.M unit.

Definition startup : Eff.M unit :=
  Eff.try_except_Exception
    (init_database ;;
     Logging.info "Database initialized successfully" ;;
     Logging.info "Application startup completed")%eff
    (fun e =>
       Logging.error ("Application startup failed: " ++ Eff.exc_str e) ;;
       Eff.raise e)%eff.

Definition shutdown : Eff.M unit :=
  Eff.try_except_Exception
    (Logging.info "Shutting down application" ;;
     close_database ;;
     Logging.info "Database connections closed" ;;
     Logging.info "Application shutdown completed")%eff
    (fun e => Logging.error ("Error during shutdown: " ++ Eff.exc_str e)).

Definition lifespan : Eff.M (Eff.M unit) :=
  (Logging.info "Starting Flowlytix Subscription Server" ;;
   startup ;;
   Eff.yield_then shutdown)%eff.

End Lifespan.
End MainFixed.

Module Main.
Section Lifespan.

Variable init_database : Eff.M unit.
Variable close_database : Eff.M unit.

Definition startup : Eff.M unit :=
  Eff.try_except_Exception
    (init_database ;;
     Structlog.info "Database initialized successfully" [] ;;
     Structlog.info "Application startup completed" [])%eff
    (fun e =>
       Structlog.error "Application startup failed"
         [("error", Eff.exc_str e); ("exc_info", Eff.exc_str e)] ;;
       Eff.raise e)%eff.

Definition shutdown : Eff.M unit :=
  Eff.try_except_Exception
    (Structlog.info "Shutting down application" [] ;;
     close_database ;;
     Structlog.info "Database connections closed" [] ;;
     Structlog.info "Application shutdown completed" [])%eff
    (fun e =>
       Structlog.error "Error during shutdown"
         [("error", Eff.exc_str e); ("exc_info", Eff.exc_str e)]).

Definition lifespan : Eff.M (Eff.M unit) :=
  (w <- Eff.get_world ;;
   Structlog.info "Starting Flowlytix Subscription Server"
     [("version", Eff.settings_version w)] ;;
   startup ;;
   Eff.yield_then shutdown)%eff.

End Lifespan.
End Main.

(** ** Generators and [asynccontextmanager]

    The lifespan managers once more, as the generator functions they are:
    the statements in their order, each [yield] where the source has it,
    and the protocol of [contextlib.asynccontextmanager] on top, which
    resumes the generator normally when the body of the [async with]
    returns and throws the body's exception in at the [yield] when it
    raises. *)

Module Gen.

(** What resumes a suspended generator. *)
Inductive Resume :=
| Next
| Throw (e : Eff.PyExc).

(** Statements of a generator function. *)
Inductive Code :=
| Skip
| Raise (e : Eff.PyExc)
| Call (m : Eff.M unit)
| Yield
| Seq (c1 c2 : Code)
| TryExceptException (body : Code) (handler : Eff.PyExc -> Code).

(** A generator that ran to its end, or one suspended at a [yield] with
    the code that remains, given what resumes it. *)
Inductive Paused :=
| Finished
| Suspended (rest : Resume -> Code).

(** Run generator code up to its next [yield].  An exception thrown in
    at a [yield] is raised there, so the [try] blocks around that
    [yield], and only they, get to handle it. *)
Fixpoint run (c : Code) : Eff.M Paused :=
  match c with
  | Skip => Eff.ret Finished
  | Raise e => Eff.raise e
  | Call m => Eff.bind m (fun _ => Eff.ret Finished)
  | Yield =>
      Eff.ret (Suspended (fun r => match r with
                                   | Next => Skip
                                   | Throw e => Raise e
                                   end))
  | Seq c1 c2 =>
      Eff.bind (run c1) (fun p =>
        match p with
        | Finished => run c2
        | Suspended rest => Eff.ret (Suspended (fun r => Seq (rest r) c2))
        end)
  | TryExceptException body handler =>
      fun w =>
        match run body w with
        | (Eff.Returned Finished, w') => (Eff.Returned Finished, w')
        | (Eff.Returned (Suspended rest), w') =>
            (Eff.Returned
               (Suspended (fun r => TryExceptException (rest r) handler)),
             w')
        | (Eff.Raised e, w') =>
            if Eff.isinstance_Exception e then run (handler e) w'
            else (Eff.Raised e, w')
        end
  end.

Definition RuntimeError (msg : string) : Eff.PyExc :=
  {| Eff.isinstance_Exception := true; Eff.exc_str := msg |}.

(** [__aenter__]: the generator must reach a [yield]. *)
Definition aenter (g : Code) : Eff.M (Resume -> Code) :=
  Eff.bind (run g) (fun p =>
    match p with
    | Suspended rest => Eff.ret rest
    | Finished => Eff.raise (RuntimeError "generator didn't yield")
    end).

(** [__aexit__]: after a normal body the generator must finish; after an
    exception of the body, thrown in at the [yield], the generator either
    raises (the exception leaves the [async with]) or finishes (the
    exception is suppressed). *)
Definition aexit (rest : Resume -> Code) (r : Resume) : Eff.M unit :=
  Eff.bind (run (rest r)) (fun p =>
    match p with
    | Finished => Eff.ret tt
    | Suspended _ =>
        Eff.raise (RuntimeError
                     match r with
                     | Next => "generator didn't stop"
                     | Throw _ => "generator didn't stop after athrow()"
                     end)
    end).

(** [async with asynccontextmanager(g)(): body]. *)
Definition async_with (g : Code) (body : Eff.M unit) : Eff.M unit :=
  Eff.bind (aenter g) (fun rest =>
    fun w =>
      match body w with
      | (Eff.Returned _, w') => aexit rest Next w'
      | (Eff.Raised e, w') => aexit rest (Throw e) w'
      end).

End Gen.

Module Generators.

Module MainFixed.
Section Lifespan.

Variable init_database : Eff.M unit.
Variable close_database : Eff.M unit.

Definition lifespan : Gen.Code :=
  Gen.Seq (Gen.Call (Logging.info "Starting Flowlytix Subscription Server"))
 (Gen.Seq
    (Gen.TryExceptException
       (Gen.Seq (Gen.Call init_database)
       (Gen.Seq (Gen.Call (Logging.info "Database initialized successfully"))
                (Gen.Call (Logging.info "Application startup completed"))))
       (fun e =>
          Gen.Seq (Gen.Call (Logging.error ("Application startup failed: "
                                              ++ Eff.exc_str e)))
                  (Gen.Raise e)))
 (Gen.Seq Gen.Yield
    (Gen.TryExceptException
       (Gen.Seq (Gen.Call (Logging.info "Shutting down application"))
       (Gen.Seq (Gen.Call close_database)
       (Gen.Seq (Gen.Call (Logging.info "Database connections closed"))
                (Gen.Call (Logging.info "Application shutdown completed")))))
       (fun e =>
          Gen.Call (Logging.error ("Error during shutdown: "
                                     ++ Eff.exc_str e)))))).

End Lifespan.
End MainFixed.

Module Main.
Section Lifespan.

Variable init_database : Eff.M unit.
Variable close_database : Eff.M unit.

(** The first statement reads [settings.version] for its log record. *)
Definition banner : Eff.M unit :=
  (w <- Eff.get_world ;;
   Structlog.info "Starting Flowlytix Subscription Server"
     [("version", Eff.settings_version w)])%eff.

Definition lifespan : Gen.Code :=
  Gen.Seq (Gen.Call banner)
 (Gen.Seq
    (Gen.TryExceptException
       (Gen.Seq (Gen.Call init_database)
       (Gen.Seq
          (Gen.Call (Structlog.info "Database initialized successfully" []))
          (Gen.Call (Structlog.info "Application startup completed" []))))
       (fun e =>
          Gen.Seq (Gen.Call (Structlog.error "Application startup failed"
                               [("error", Eff.exc_str e);
                                ("exc_info", Eff.exc_str e)]))
                  (Gen.Raise e)))
 (Gen.Seq Gen.Yield
    (Gen.TryExceptException
       (Gen.Seq (Gen.Call (Structlog.info "Shutting down application" []))
       (Gen.Seq (Gen.Call close_database)
       (Gen.Seq
          (Gen.Call (Structlog.info "Database connections closed" []))
          (Gen.Call (Structlog.info "Application shutdown completed" [])))))
       (fun e =>
          Gen.Call (Structlog.error "Error during shutdown"
                      [("error", Eff.exc_str e);
                       ("exc_info", Eff.exc_str e)]))))).

End Lifespan.
End Main.

(** A context manager that is not the repository's: its [yield] stands
    inside the [try], so its handler sees what the body raises. *)
Definition guarded (cleanup : Eff.M unit) : Gen.Code :=
  Gen.TryExceptException Gen.Yield (fun _ => Gen.Call cleanup).

End Generators.

(** ** Specification-side notions *)

(** [needle] occurs in [hay] as a contiguous run of characters. *)
Definition is_substring (needle hay : string) : Prop :=
  exists pre post, hay = pre ++ needle ++ post.

(** ceil(a / b) as the spec writes it: the ceiling of the rational. *)
Definition ceil_ratio (a b : Z) : Z :=
  Qceiling (inject_Z a / inject_Z b).

(** The three values the generator gives to the status field. *)
Definition known_status (s : string) : bool :=
  String.eqb s "active" || String.eqb s "expired" || String.eqb s "suspended".

(** The loop indices that survive the two filters. *)
Definition filtered_indices (st se : option string) : list Z :=
  let keep (o : option string) (f : string -> SubscriptionRecord -> bool)
           (l : list Z) :=
    match PyStr.truthy o with
    | Some x => filter (fun i => f x (mock_subscription i)) l
    | None => l
    end in
  keep se search_matches (keep st status_matches (PySeq.range 1 201)).

(** A database collaborator that is down, and a world to start from. *)
Definition connection_refused : Eff.PyExc :=
  {| Eff.isinstance_Exception := true;
     Eff.exc_str := "connection refused" |}.

Definition database_down : Eff.M unit := Eff.raise connection_refused.

Definition fresh_world : Eff.World :=
  {| Eff.settings_version := "1.0.0";
     Eff.settings_environment := "development";
     Eff.now_isoformat := "2024-01-15T10:00:00";
     Eff.log := [];
     Eff.db_connected := false |}.

(** The [data] array of a response, empty when the request ended in an
    error. *)
Definition data_of (r : result Envelope) : list SubscriptionRecord :=
  match r with
  | Ok env => data (payload env)
  | Err _ => []
  end.

(** The [data] arrays of pages 1 to [n] of one query, end to end. *)
Definition pages_upto (n page_size : Z) (status_arg search_arg : option string)
  : list SubscriptionRecord :=
  List.concat (map (fun p => data_of (list_subscriptions p page_size
                                   status_arg search_arg))
              (PySeq.range 1 (n + 1))).

(** Decidable equality of index lists, for checks run over the whole
    candidate set. *)
Fixpoint index_list_eqb (l1 l2 : list Z) : bool :=
  match l1, l2 with
  | [], [] => true
  | a :: l1', b :: l2' => (a =? b) && index_list_eqb l1' l2'
  | _, _ => false
  end.

(** A computation keeps a property of the ambient state. *)
Definition preserves (P : Eff.World -> Prop) {A} (m : Eff.M A) : Prop :=
  forall w, P w -> P (Eff.exec m w).

(** Reference [ref] holds the dict of record [r]. *)
Definition points_to (s : Heap.Store) (ref : nat) (r : SubscriptionRecord)
  : Prop :=
  nth_error s ref = Some (Heap.DictObj r).

(** Reference [ref] holds a list whose items are the dicts of [rs]. *)
Definition holds_list (s : Heap.Store) (ref : nat)
    (rs : list SubscriptionRecord) : Prop :=
  exists items,
    nth_error s ref = Some (Heap.ListObj items)
    /\ Forall2 (points_to s) items rs.

(** ** Facts about the string primitives *)

Lemma startswith_spec (n h : string) :
  PyStr.startswith n h = true <-> exists post, h = n ++ post.
Proof.
  revert h; induction n as [|a n IH]; intros h; simpl.
  - split; [intros _; now exists h | reflexivity].
  - destruct h as [|b h].
    + split; [discriminate | intros [post H]; discriminate].
    + rewrite andb_true_iff, Ascii.eqb_eq, IH. split.
      * intros [-> [post ->]]. now exists post.
      * intros [post H]. injection H as -> ->. split; [reflexivity | now exists post].
Qed.

Lemma str_in_spec (n h : string) :
  PyStr.str_in n h = true <-> is_substring n h.
Proof.
  unfold is_substring. induction h as [|b h IH].
  - simpl. rewrite orb_false_r, startswith_spec. split.
    + intros [post H]. now exists "", post.
    + intros [pre [post H]]. destruct pre; simpl in H.
      * now exists post.
      * discriminate.
  - cbn [PyStr.str_in]. rewrite orb_true_iff, startswith_spec, IH. split.
    + intros [[post H] | [pre [post H]]].
      * now exists "", post.
      * exists (String b pre), post. simpl. now rewrite H.
    + intros [pre [post H]]. destruct pre as [|c pre]; simpl in H.
      * left. now exists post.
      * right. injection H as _ H. now exists pre, post.
Qed.

(** ** Facts about slices *)

Lemma clamp_nonneg (len i : Z) :
  0 <= i -> PySeq.clamp len i = Z.min i len.
Proof.
  intros H. unfold PySeq.clamp. destruct (Z.ltb_spec i 0); [lia | reflexivity].
Qed.

Lemma slice_contiguous {A} (l : list A) (s e : Z) :
  exists pre post, l = (pre ++ PySeq.slice l s e ++ post)%list.
Proof.
  unfold PySeq.slice.
  set (k := Z.to_nat (PySeq.clamp _ s)).
  set (n := Z.to_nat (_ - _)).
  exists (firstn k l), (skipn n (skipn k l)).
  now rewrite (firstn_skipn n (skipn k l)), firstn_skipn.
Qed.

Lemma slice_map {A B} (f : A -> B) (l : list A) (s e : Z) :
  PySeq.slice (map f l) s e = map f (PySeq.slice l s e).
Proof.
  unfold PySeq.slice. now rewrite length_map, skipn_map, firstn_map.
Qed.

Lemma slice_length {A} (l : list A) (s e : Z) :
  0 <= s <= e ->
  Z.of_nat (List.length (PySeq.slice l s e))
  = Z.min e (Z.of_nat (List.length l)) - Z.min s (Z.of_nat (List.length l)).
Proof.
  intros H. unfold PySeq.slice.
  rewrite !clamp_nonneg by lia.
  rewrite length_firstn, length_skipn. lia.
Qed.

(** ** Facts about the page count *)

Lemma ceil_ratio_floor_form (a b : Z) :
  0 < b -> ceil_ratio a b = (a + b - 1) / b.
Proof.
  intros Hb. unfold ceil_ratio, Qceiling, Qfloor.
  destruct b as [|p|p]; try lia.
  unfold Qdiv, Qinv, Qmult, Qopp, inject_Z; simpl Qnum; simpl Qden.
  rewrite ?Z.mul_1_r, ?Pos.mul_1_l.
  pose proof (Z.div_mod (- a) (Z.pos p) ltac:(lia)) as E1.
  pose proof (Z.mod_pos_bound (- a) (Z.pos p) ltac:(lia)) as B1.
  pose proof (Z.div_mod (a + Z.pos p - 1) (Z.pos p) ltac:(lia)) as E2.
  pose proof (Z.mod_pos_bound (a + Z.pos p - 1) (Z.pos p) ltac:(lia)) as B2.
  nia.
Qed.

Lemma pages_zero_iff (n b : Z) :
  0 <= n -> 0 < b -> ((n + b - 1) / b = 0 <-> n = 0).
Proof.
  intros Hn Hb. split.
  - intros H. destruct (Z.eq_dec n 0) as [|Hne]; [assumption | exfalso].
    assert (1 <= (n + b - 1) / b) by (apply Z.div_le_lower_bound; lia). lia.
  - intros ->. apply Z.div_small. lia.
Qed.

Lemma query_valid_iff (p ps : Z) :
  query_valid p ps = true <-> 1 <= p /\ 1 <= ps <= 100.
Proof.
  unfold query_valid. rewrite !andb_true_iff, !Z.leb_le. lia.
Qed.

(** On validated parameters the endpoint returns, and its envelope is
    the one the body builds. *)
Lemma list_subscriptions_rejects (p ps : Z) (st se : option string) :
  ~ (1 <= p /\ 1 <= ps <= 100) ->
  list_subscriptions p ps st se = Err RequestValidationError.
Proof.
  intros H. unfold list_subscriptions.
  destruct (query_valid p ps) eqn:E; [| reflexivity].
  apply query_valid_iff in E. contradiction.
Qed.

Lemma list_subscriptions_ok (p ps : Z) (st se : option string) :
  1 <= p -> 1 <= ps <= 100 ->
  let filtered := filtered_subscriptions st se in
  let paginated := PySeq.slice filtered ((p - 1) * ps) ((p - 1) * ps + ps) in
  list_subscriptions p ps st se
  = Ok {| success := true;
          payload := {| data := paginated;
                        totalCount := Z.of_nat (List.length filtered);
                        page := p;
                        pageSize := ps;
                        totalPages :=
                          (Z.of_nat (List.length filtered) + ps - 1) / ps |};
          message := "Retrieved "
                       ++ PyStr.str (Z.of_nat (List.length paginated))
                       ++ " subscriptions" |}.
Proof.
  intros Hp Hps. cbv zeta. unfold list_subscriptions.
  replace (query_valid p ps) with true
    by (symmetry; apply query_valid_iff; lia).
  unfold paginate_body.
  destruct (Z.eqb_spec ps 0); [lia | reflexivity].
Qed.

(** ** The first page *)

(** C1: the call with page 1, page size 10 and no filter returns the
    first ten generated records, ids "1" to "10" in generation order,
    with totalCount 200 and totalPages 20. *)
Theorem first_page_of_ten :
  exists r,
    list_subscriptions 1 10 None None = Ok r
    /\ data (payload r) = firstn 10 mock_subscriptions
    /\ data (payload r) = map mock_subscription [1; 2; 3; 4; 5; 6; 7; 8; 9; 10]
    /\ ids (data (payload r))
       = ["1"; "2"; "3"; "4"; "5"; "6"; "7"; "8"; "9"; "10"]
    /\ List.length mock_subscriptions = 200%nat
    /\ totalCount (payload r) = 200
    /\ totalPages (payload r) = 20.
Proof.
  eexists. split; [vm_compute; reflexivity |].
  repeat split; vm_compute; reflexivity.
Qed.

(** ** Page length *)

(** C2, as stated, fails: page 21 of size 10 over the unfiltered set is
    not the page numbered totalPages = 20, yet it holds 0 records. *)
Lemma page_past_last_is_short :
  exists r,
    list_subscriptions 21 10 None None = Ok r
    /\ 21 <> totalPages (payload r)
    /\ Z.of_nat (List.length (data (payload r))) <> 10.
Proof.
  eexists. split; [vm_compute; reflexivity |].
  split; vm_compute; discriminate.
Qed.

(** C2 (amended): for page >= 1 and pageSize in [1, 100] the page holds
    at most pageSize records, and exactly pageSize of them whenever the
    page comes before the last one (page < totalPages). *)
Theorem page_length_bound (p ps : Z) (st se : option string) :
  1 <= p -> 1 <= ps <= 100 ->
  exists r,
    list_subscriptions p ps st se = Ok r
    /\ Z.of_nat (List.length (data (payload r))) <= ps
    /\ (p < totalPages (payload r) ->
        Z.of_nat (List.length (data (payload r))) = ps).
Proof.
  intros Hp Hps. eexists. split; [apply list_subscriptions_ok; lia |].
  cbn [payload data totalPages].
  set (n := Z.of_nat (List.length (filtered_subscriptions st se))).
  assert (0 <= n) by (subst n; lia).
  rewrite slice_length by nia. fold n. split.
  - lia.
  - intros Hlt.
    assert (Hq : (p + 1) * ps <= n + ps - 1).
    { pose proof (Z.mul_div_le (n + ps - 1) ps ltac:(lia)). nia. }
    nia.
Qed.

Lemma page_length_bound_witness :
  exists r,
    list_subscriptions 2 10 (Some "active") None = Ok r
    /\ Z.of_nat (List.length (data (payload r))) <= 10
    /\ (2 < totalPages (payload r) ->
        Z.of_nat (List.length (data (payload r))) = 10).
Proof.
  apply (page_length_bound 2 10 (Some "active") None); lia.
Defined.

(** ** Page count *)

(** C3: on every accepted input, totalCount is the size of the filtered
    set, totalPages is the ceiling of totalCount / pageSize, and
    totalPages is 0 exactly when totalCount is 0. *)
Theorem total_pages_is_ceiling (p ps : Z) (st se : option string) :
  1 <= p -> 1 <= ps <= 100 ->
  exists r,
    list_subscriptions p ps st se = Ok r
    /\ totalCount (payload r)
       = Z.of_nat (List.length (filtered_subscriptions st se))
    /\ pageSize (payload r) = ps
    /\ totalPages (payload r)
       = ceil_ratio (totalCount (payload r)) (pageSize (payload r))
    /\ (totalPages (payload r) = 0 <-> totalCount (payload r) = 0).
Proof.
  intros Hp Hps. eexists. split; [apply list_subscriptions_ok; lia |].
  cbn [payload totalCount totalPages pageSize].
  repeat split.
  - now rewrite ceil_ratio_floor_form by lia.
  - apply pages_zero_iff; lia.
  - apply pages_zero_iff; lia.
Qed.

Lemma total_pages_is_ceiling_witness :
  exists r,
    list_subscriptions 3 7 None (Some "Customer 5") = Ok r
    /\ totalCount (payload r)
       = Z.of_nat (List.length
                     (filtered_subscriptions None (Some "Customer 5")))
    /\ pageSize (payload r) = 7
    /\ totalPages (payload r)
       = ceil_ratio (totalCount (payload r)) (pageSize (payload r))
    /\ (totalPages (payload r) = 0 <-> totalCount (payload r) = 0).
Proof.
  apply (total_pages_is_ceiling 3 7 None (Some "Customer 5")); lia.
Defined.

(** ** Pages past the end *)

(** C6: a page whose offset (page - 1) * pageSize is at or past
    totalCount is answered normally with an empty data list, and its
    totalCount and totalPages are those of every other page requested
    with the same filters and page size. *)
Theorem page_out_of_range_is_empty (p p' ps : Z) (st se : option string) :
  1 <= p -> 1 <= p' -> 1 <= ps <= 100 ->
  Z.of_nat (List.length (filtered_subscriptions st se)) <= (p - 1) * ps ->
  exists r r',
    list_subscriptions p ps st se = Ok r
    /\ list_subscriptions p' ps st se = Ok r'
    /\ data (payload r) = []
    /\ totalCount (payload r) = totalCount (payload r')
    /\ totalPages (payload r) = totalPages (payload r').
Proof.
  intros Hp Hp' Hps Hout. do 2 eexists.
  split; [apply list_subscriptions_ok; lia |].
  split; [apply list_subscriptions_ok; lia |].
  cbn [payload data totalCount totalPages]. repeat split.
  apply length_zero_iff_nil. apply Nat2Z.inj.
  rewrite slice_length by nia. lia.
Qed.

Lemma page_out_of_range_is_empty_witness :
  exists r r',
    list_subscriptions 16 10 (Some "active") None = Ok r
    /\ list_subscriptions 15 10 (Some "active") None = Ok r'
    /\ data (payload r) = []
    /\ totalCount (payload r) = totalCount (payload r')
    /\ totalPages (payload r) = totalPages (payload r').
Proof.
  apply (page_out_of_range_is_empty 16 15 10 (Some "active") None);
    try lia.
  vm_compute. discriminate.
Defined.

(** ** Empty filter arguments *)

(** C10: an empty string given as status or as search is falsy, so the
    filter step is skipped and the answer is that of the call without the
    parameter; an empty status in particular does not empty the result. *)
Theorem empty_filter_is_absent (p ps : Z) (st se : option string) :
  list_subscriptions p ps (Some "") se = list_subscriptions p ps None se
  /\ list_subscriptions p ps st (Some "") = list_subscriptions p ps st None
  /\ filtered_subscriptions (Some "") (Some "") = mock_subscriptions
  /\ filter (status_matches "") mock_subscriptions = [].
Proof.
  split; [reflexivity |].
  split; [reflexivity |].
  split; vm_compute; reflexivity.
Qed.

(** ** Filtering *)

Lemma filter_comm {A} (f g : A -> bool) (l : list A) :
  filter f (filter g l) = filter g (filter f l).
Proof.
  induction l as [|a l IH]; [reflexivity |]. simpl.
  destruct (f a) eqn:Hf, (g a) eqn:Hg; simpl; rewrite ?Hf, ?Hg, IH; reflexivity.
Qed.

Lemma truthy_nonempty (s : string) :
  s <> "" -> PyStr.truthy (Some s) = Some s.
Proof. destruct s; [congruence | reflexivity]. Qed.

Lemma status_filter_step (st : string) (se : option string) :
  st <> "" ->
  filtered_subscriptions (Some st) se
  = filter (status_matches st) (filtered_subscriptions None se).
Proof.
  intros Hst. unfold filtered_subscriptions.
  rewrite (truthy_nonempty st Hst). cbn [PyStr.truthy].
  destruct (PyStr.truthy se); [apply filter_comm | reflexivity].
Qed.

Lemma search_filter_step (q : string) (st : option string) :
  q <> "" ->
  filtered_subscriptions st (Some q)
  = filter (search_matches q) (filtered_subscriptions st None).
Proof.
  intros Hq. unfold filtered_subscriptions.
  rewrite (truthy_nonempty q Hq). reflexivity.
Qed.

Lemma filtered_incl (st se : option string) :
  incl (filtered_subscriptions st se) mock_subscriptions.
Proof.
  unfold filtered_subscriptions.
  destruct (PyStr.truthy st), (PyStr.truthy se);
    repeat (eapply incl_tran; [apply incl_filter |]); apply incl_refl.
Qed.

Lemma mock_status_known (r : SubscriptionRecord) :
  In r mock_subscriptions -> known_status (status r) = true.
Proof.
  revert r. apply forallb_forall. vm_compute. reflexivity.
Qed.

(** C4: a non-empty status argument keeps exactly the records of the
    candidate set whose status field is that very string (compared
    character by character, so "Active" is not "active"), in their order,
    alone or together with a search; a value other than the three
    generated ones is accepted and matches nothing. *)
Theorem status_filter_exact (st : string) :
  st <> "" ->
  filtered_subscriptions (Some st) None
  = filter (fun r => String.eqb (status r) st) mock_subscriptions
  /\ (forall r, In r (filtered_subscriptions (Some st) None)
                <-> In r mock_subscriptions /\ status r = st)
  /\ (forall se, filtered_subscriptions (Some st) se
                 = filter (fun r => String.eqb (status r) st)
                          (filtered_subscriptions None se))
  /\ (forall se r, In r (filtered_subscriptions (Some st) se)
                  <-> In r (filtered_subscriptions None se) /\ status r = st)
  /\ (forall p ps, 1 <= p -> 1 <= ps <= 100 ->
        exists r,
          list_subscriptions p ps (Some st) None = Ok r
          /\ totalCount (payload r)
             = Z.of_nat (List.length
                           (filter (fun r => String.eqb (status r) st)
                                   mock_subscriptions))
          /\ (forall x, In x (data (payload r)) ->
                        In x mock_subscriptions /\ status x = st))
  /\ (st <> "active" -> st <> "expired" -> st <> "suspended" ->
      forall p ps se, 1 <= p -> 1 <= ps <= 100 ->
        exists r, list_subscriptions p ps (Some st) se = Ok r
                  /\ data (payload r) = []
                  /\ totalCount (payload r) = 0
                  /\ totalPages (payload r) = 0)
  /\ ids (filtered_subscriptions (Some "expired") None)
     = ["12"; "24"; "36"; "48"; "60"; "72"; "84"; "96"; "108"; "120";
        "132"; "144"; "156"; "168"; "180"; "192"]
  /\ List.length (filtered_subscriptions (Some "active") None) = 150%nat
  /\ List.length (filtered_subscriptions (Some "suspended") None) = 34%nat
  /\ filtered_subscriptions (Some "Active") None = [].
Proof.
  intros Hst.
  assert (Hall : filtered_subscriptions (Some st) None
                 = filter (fun r => String.eqb (status r) st)
                          mock_subscriptions).
  { unfold filtered_subscriptions. rewrite (truthy_nonempty st Hst).
    reflexivity. }
  assert (Hin : forall r, In r (filtered_subscriptions (Some st) None)
                          <-> In r mock_subscriptions /\ status r = st).
  { intros r. rewrite Hall, filter_In. now rewrite String.eqb_eq. }
  split; [exact Hall | split; [exact Hin |]].
  split; [| split; [| split; [| split]]].
  - intros se. apply (status_filter_step st se Hst).
  - intros se r. rewrite (status_filter_step st se Hst), filter_In.
    unfold status_matches. now rewrite String.eqb_eq.
  - intros p ps Hp Hps. eexists.
    split; [apply list_subscriptions_ok; lia |].
    cbn [payload data totalCount]. split; [now rewrite Hall |].
    intros x Hx. apply Hin.
    destruct (slice_contiguous (filtered_subscriptions (Some st) None)
                ((p - 1) * ps) ((p - 1) * ps + ps)) as [pre [post E]].
    rewrite E. apply in_or_app. right. apply in_or_app. now left.
  - intros Ha He Hs p ps se Hp Hps.
    assert (Hnil : filtered_subscriptions (Some st) se = []).
    { destruct (filtered_subscriptions (Some st) se) as [|r l] eqn:E;
        [reflexivity | exfalso].
      assert (Hr : In r (filtered_subscriptions (Some st) se))
        by (rewrite E; now left).
      pose proof (mock_status_known r (filtered_incl _ _ r Hr)) as Hk.
      rewrite (status_filter_step st se Hst), filter_In in Hr.
      destruct Hr as [_ Hm]. apply String.eqb_eq in Hm.
      unfold known_status in Hk. rewrite Hm in Hk.
      rewrite !orb_true_iff, !String.eqb_eq in Hk. intuition congruence. }
    eexists. split; [apply list_subscriptions_ok; lia |].
    cbn [payload data totalCount totalPages]. rewrite Hnil.
    split; [| split].
    + unfold PySeq.slice. now rewrite skipn_nil, firstn_nil.
    + reflexivity.
    + apply Z.div_small. simpl. lia.
  - split; [vm_compute; reflexivity |].
    split; [vm_compute; reflexivity |].
    split; vm_compute; reflexivity.
Qed.

Lemma status_filter_exact_witness :
  (filtered_subscriptions (Some "expired") None
   = filter (fun r => String.eqb (status r) "expired") mock_subscriptions
   /\ (forall r, In r (filtered_subscriptions (Some "expired") None)
                 <-> In r mock_subscriptions /\ status r = "expired")
   /\ exists r,
        list_subscriptions 2 10 (Some "expired") None = Ok r
        /\ totalCount (payload r)
           = Z.of_nat (List.length
                         (filter (fun r => String.eqb (status r) "expired")
                                 mock_subscriptions))
        /\ (forall x, In x (data (payload r)) ->
                      In x mock_subscriptions /\ status x = "expired"))
  /\ exists r, list_subscriptions 1 10 (Some "Active") None = Ok r
               /\ data (payload r) = []
               /\ totalCount (payload r) = 0
               /\ totalPages (payload r) = 0.
Proof.
  split.
  - destruct (status_filter_exact "expired" ltac:(discriminate))
      as (H1 & H2 & _ & _ & H5 & _).
    split; [exact H1 | split; [exact H2 |]].
    apply H5; lia.
  - destruct (status_filter_exact "Active" ltac:(discriminate))
      as (_ & _ & _ & _ & _ & H6 & _).
    apply H6; try discriminate; lia.
Defined.

(** C5, as stated, fails on its example: the records with ids 150 to 159
    are not returned for the search term "Customer 5"; the matches are
    ids 5 and 50 to 59 only. *)
Lemma search_customer_5_excludes_150 :
  ids (filtered_subscriptions None (Some "Customer 5"))
  = ["5"; "50"; "51"; "52"; "53"; "54"; "55"; "56"; "57"; "58"; "59"]
  /\ customerName (mock_subscription 150) = "Customer 150"
  /\ search_matches "Customer 5" (mock_subscription 150) = false
  /\ ~ In (mock_subscription 150)
          (filtered_subscriptions None (Some "Customer 5")).
Proof.
  split; [vm_compute; reflexivity |].
  split; [vm_compute; reflexivity |].
  split; [vm_compute; reflexivity |].
  rewrite search_filter_step by discriminate. rewrite filter_In.
  intros [_ H]. vm_compute in H. discriminate.
Qed.

(** C5 (amended): a non-empty search argument keeps exactly the
    candidates in which the lower-cased term occurs inside the lower-cased
    customerName or the lower-cased licenseKey; for "Customer 5" the
    term occurs in no licenseKey, every returned customerName contains it
    case-insensitively, and the matches are ids 5 and 50 to 59. *)
Theorem search_filter_substring :
  (forall q, q <> "" ->
     forall st r,
       In r (filtered_subscriptions st (Some q))
       <-> In r (filtered_subscriptions st None)
           /\ (is_substring (PyStr.lower q) (PyStr.lower (customerName r))
               \/ is_substring (PyStr.lower q) (PyStr.lower (licenseKey r))))
  /\ (forall q, q <> "" ->
        forall st, filtered_subscriptions st (Some q)
                   = filter (search_matches q) (filtered_subscriptions st None))
  /\ (forall r, In r mock_subscriptions ->
        ~ is_substring (PyStr.lower "Customer 5") (PyStr.lower (licenseKey r)))
  /\ (forall st r, In r (filtered_subscriptions st (Some "Customer 5")) ->
        is_substring (PyStr.lower "Customer 5") (PyStr.lower (customerName r)))
  /\ ids (filtered_subscriptions None (Some "Customer 5"))
     = ["5"; "50"; "51"; "52"; "53"; "54"; "55"; "56"; "57"; "58"; "59"].
Proof.
  assert (Hkey : forall r, In r mock_subscriptions ->
            ~ is_substring (PyStr.lower "Customer 5")
                           (PyStr.lower (licenseKey r))).
  { intros r Hin Hsub. apply str_in_spec in Hsub. revert r Hin Hsub.
    assert (Hall : forallb
              (fun r => negb (PyStr.str_in (PyStr.lower "Customer 5")
                                (PyStr.lower (licenseKey r))))
              mock_subscriptions = true) by (vm_compute; reflexivity).
    intros r Hin Hsub. rewrite forallb_forall in Hall.
    specialize (Hall r Hin). rewrite Hsub in Hall. discriminate. }
  assert (Hgen : forall q, q <> "" -> forall st r,
            In r (filtered_subscriptions st (Some q))
            <-> In r (filtered_subscriptions st None)
                /\ (is_substring (PyStr.lower q) (PyStr.lower (customerName r))
                    \/ is_substring (PyStr.lower q)
                                    (PyStr.lower (licenseKey r)))).
  { intros q Hq st r. rewrite (search_filter_step q st Hq), filter_In.
    unfold search_matches. now rewrite orb_true_iff, !str_in_spec. }
  split; [exact Hgen |].
  split; [intros q Hq st; apply (search_filter_step q st Hq) |].
  split; [exact Hkey |].
  split; [| vm_compute; reflexivity].
  intros st r Hin. apply Hgen in Hin; [| discriminate].
  destruct Hin as [Hin [H | H]]; [exact H | exfalso].
  exact (Hkey r (filtered_incl _ _ r Hin) H).
Qed.

Lemma search_filter_substring_witness :
  "fl-0010" <> ""
  /\ (forall r,
        In r (filtered_subscriptions (Some "active") (Some "fl-0010"))
        <-> In r (filtered_subscriptions (Some "active") None)
            /\ (is_substring (PyStr.lower "fl-0010")
                             (PyStr.lower (customerName r))
                \/ is_substring (PyStr.lower "fl-0010")
                                (PyStr.lower (licenseKey r))))
  /\ filtered_subscriptions (Some "active") (Some "fl-0010")
     = filter (search_matches "fl-0010")
              (filtered_subscriptions (Some "active") None).
Proof.
  assert (H : "fl-0010" <> "") by discriminate.
  destruct search_filter_substring as [H1 [H2 _]].
  split; [exact H | split].
  - exact (H1 "fl-0010" H (Some "active")).
  - exact (H2 "fl-0010" H (Some "active")).
Defined.

(** ** Order of the result *)

Section SortedSublists.

Context {A : Type} (R : A -> A -> Prop).

Lemma sorted_filter (f : A -> bool) (l : list A) :
  StronglySorted R l -> StronglySorted R (filter f l).
Proof.
  induction 1 as [|a l Hs IH Hall]; simpl; [constructor |].
  destruct (f a); [| exact IH].
  constructor; [exact IH |].
  rewrite Forall_forall in *. intros x Hx.
  apply Hall. now apply (incl_filter f l).
Qed.

Lemma sorted_app_r (l1 l2 : list A) :
  StronglySorted R (l1 ++ l2) -> StronglySorted R l2.
Proof.
  induction l1 as [|a l1 IH]; simpl; [trivial |].
  intros H. apply StronglySorted_inv in H. now apply IH.
Qed.

Lemma sorted_app_l (l1 l2 : list A) :
  StronglySorted R (l1 ++ l2) -> StronglySorted R l1.
Proof.
  induction l1 as [|a l1 IH]; simpl; [constructor |].
  intros H. apply StronglySorted_inv in H. destruct H as [Hs Hall].
  constructor; [now apply IH |].
  apply Forall_app in Hall. tauto.
Qed.

End SortedSublists.

Lemma range_from_sorted (a : Z) (n start : nat) :
  StronglySorted Z.lt (map (fun k => a + Z.of_nat k) (seq start n)).
Proof.
  revert start. induction n as [|n IH]; intros start; simpl; constructor.
  - apply IH.
  - apply Forall_forall. intros x Hx.
    apply in_map_iff in Hx. destruct Hx as [k [<- Hk]].
    apply in_seq in Hk. lia.
Qed.

Lemma range_sorted (a b : Z) : StronglySorted Z.lt (PySeq.range a b).
Proof. apply range_from_sorted. Qed.

Lemma range_bounds (a b k : Z) : In k (PySeq.range a b) -> a <= k < b.
Proof.
  unfold PySeq.range. intros H.
  apply in_map_iff in H. destruct H as [j [<- Hj]].
  apply in_seq in Hj. lia.
Qed.

Lemma filtered_by_index (st se : option string) :
  filtered_subscriptions st se
  = map mock_subscription (filtered_indices st se).
Proof.
  unfold filtered_subscriptions, filtered_indices, mock_subscriptions.
  destruct (PyStr.truthy st), (PyStr.truthy se);
    now rewrite ?filter_map_swap.
Qed.

Lemma filtered_indices_sorted (st se : option string) :
  StronglySorted Z.lt (filtered_indices st se).
Proof.
  unfold filtered_indices.
  destruct (PyStr.truthy st), (PyStr.truthy se);
    repeat apply sorted_filter; apply range_sorted.
Qed.

Lemma filtered_indices_bounds (st se : option string) :
  Forall (fun k => 1 <= k <= 200) (filtered_indices st se).
Proof.
  apply Forall_forall. intros k Hk.
  assert (In k (PySeq.range 1 201)).
  { unfold filtered_indices in Hk.
    destruct (PyStr.truthy st), (PyStr.truthy se);
      repeat (apply incl_filter in Hk); exact Hk. }
  apply range_bounds in H. lia.
Qed.

(** C8: the returned data is one contiguous run of the filtered set, and
    the filtered set lists generated records by strictly increasing loop
    index (the numeric id) between 1 and 200: neither filtering nor
    slicing reorders records. *)
Theorem data_is_contiguous_in_generation_order
    (p ps : Z) (st se : option string) :
  1 <= p -> 1 <= ps <= 100 ->
  exists r,
    list_subscriptions p ps st se = Ok r
    /\ exists kpre ks kpost,
         filtered_subscriptions st se
         = (map mock_subscription kpre
              ++ data (payload r)
              ++ map mock_subscription kpost)%list
         /\ data (payload r) = map mock_subscription ks
         /\ ids (data (payload r)) = map PyStr.str ks
         /\ StronglySorted Z.lt (kpre ++ ks ++ kpost)
         /\ Forall (fun k => 1 <= k <= 200) (kpre ++ ks ++ kpost)
         /\ ids mock_subscriptions = map PyStr.str (PySeq.range 1 201).
Proof.
  intros Hp Hps. eexists. split; [apply list_subscriptions_ok; lia |].
  cbn [payload data].
  set (s := (p - 1) * ps). set (e := s + ps).
  destruct (slice_contiguous (filtered_indices st se) s e)
    as [kpre [kpost Hk]].
  exists kpre, (PySeq.slice (filtered_indices st se) s e), kpost.
  rewrite filtered_by_index, slice_map.
  split; [| split; [| split; [| split; [| split]]]].
  - now rewrite <- !map_app, <- Hk.
  - reflexivity.
  - unfold ids. rewrite map_map. reflexivity.
  - rewrite <- Hk. apply filtered_indices_sorted.
  - rewrite <- Hk. apply filtered_indices_bounds.
  - unfold ids, mock_subscriptions. rewrite map_map. reflexivity.
Qed.

Lemma data_is_contiguous_in_generation_order_witness :
  exists r,
    list_subscriptions 2 5 (Some "suspended") (Some "customer 1") = Ok r
    /\ exists kpre ks kpost,
         filtered_subscriptions (Some "suspended") (Some "customer 1")
         = (map mock_subscription kpre
              ++ data (payload r)
              ++ map mock_subscription kpost)%list
         /\ data (payload r) = map mock_subscription ks
         /\ ids (data (payload r)) = map PyStr.str ks
         /\ StronglySorted Z.lt (kpre ++ ks ++ kpost)
         /\ Forall (fun k => 1 <= k <= 200) (kpre ++ ks ++ kpost)
         /\ ids mock_subscriptions = map PyStr.str (PySeq.range 1 201).
Proof.
  apply (data_is_contiguous_in_generation_order
           2 5 (Some "suspended") (Some "customer 1")); lia.
Defined.

(** ** Determinism *)

(** The clock and the settings do reach [health_check]: two worlds that
    differ in the clock give two answers.  *)
Lemma health_check_reads_world :
  exists w1 w2, fst (health_check w1) <> fst (health_check w2).
Proof.
  exists {| Eff.settings_version := "1.0.0";
            Eff.settings_environment := "development";
            Eff.now_isoformat := "2024-01-15T10:00:00";
            Eff.log := []; Eff.db_connected := true |},
         {| Eff.settings_version := "1.0.0";
            Eff.settings_environment := "development";
            Eff.now_isoformat := "2024-01-15T10:00:01";
            Eff.log := []; Eff.db_connected := true |}.
  vm_compute. discriminate.
Qed.

(** ** Lifespan: fatal startup, tolerated shutdown *)

Section LifespanFacts.

Variables init_database close_database : Eff.M unit.

Lemma try_except_raised {A} (body : Eff.M A) (handler : Eff.PyExc -> Eff.M A)
    (e : Eff.PyExc) (w w1 : Eff.World) :
  body w = (Eff.Raised e, w1) ->
  Eff.try_except_Exception body handler w
  = if Eff.isinstance_Exception e then handler e w1 else (Eff.Raised e, w1).
Proof.
  intros H. unfold Eff.try_except_Exception. now rewrite H.
Qed.

Lemma bind_raised {A B} (m : Eff.M A) (k : A -> Eff.M B)
    (e : Eff.PyExc) (w w1 : Eff.World) :
  m w = (Eff.Raised e, w1) -> Eff.bind m k w = (Eff.Raised e, w1).
Proof.
  intros H. unfold Eff.bind. now rewrite H.
Qed.

(** Only instances of [Exception] stop at [except Exception]: any other
    [BaseException] of [close_database] leaves the shutdown as raised. *)
Lemma shutdown_passes_non_Exception (e : Eff.PyExc) (w w1 : Eff.World) :
  close_database (Eff.exec (Logging.info "Shutting down application") w)
  = (Eff.Raised e, w1) ->
  Eff.isinstance_Exception e = false ->
  MainFixed.shutdown close_database w = (Eff.Raised e, w1).
Proof.
  intros Hclose Hexc. unfold MainFixed.shutdown.
  erewrite try_except_raised.
  - rewrite Hexc. reflexivity.
  - unfold Eff.bind at 1. cbn [Logging.info Eff.emit].
    apply bind_raised. exact Hclose.
Qed.

(** C9: in both entry points, an exception of [init_database] leaves the
    lifespan manager as the same exception, before the [yield], so the
    serving phase never runs (after an error record when it is an
    [Exception]); an [Exception] of [close_database] is turned into an
    error record and the shutdown returns normally. *)
Theorem lifespan_startup_fatal_shutdown_logged (e : Eff.PyExc) (w : Eff.World) :
  (forall w1,
     init_database
       (Eff.exec (Logging.info "Starting Flowlytix Subscription Server") w)
     = (Eff.Raised e, w1) ->
     forall serve,
       Eff.async_with (MainFixed.lifespan init_database close_database) serve w
       = (Eff.Raised e,
          if Eff.isinstance_Exception e
          then Eff.exec (Logging.error ("Application startup failed: "
                                          ++ Eff.exc_str e)) w1
          else w1))
  /\ (forall w1,
       close_database (Eff.exec (Logging.info "Shutting down application") w)
       = (Eff.Raised e, w1) ->
       Eff.isinstance_Exception e = true ->
       MainFixed.shutdown close_database w
       = (Eff.Returned tt,
          Eff.exec (Logging.error ("Error during shutdown: "
                                     ++ Eff.exc_str e)) w1))
  /\ (forall w1,
       init_database
         (Eff.exec (Structlog.info "Starting Flowlytix Subscription Server"
                      [("version", Eff.settings_version w)]) w)
       = (Eff.Raised e, w1) ->
       forall serve,
         Eff.async_with (Main.lifespan init_database close_database) serve w
         = (Eff.Raised e,
            if Eff.isinstance_Exception e
            then Eff.exec (Structlog.error "Application startup failed"
                             [("error", Eff.exc_str e);
                              ("exc_info", Eff.exc_str e)]) w1
            else w1))
  /\ (forall w1,
       close_database
         (Eff.exec (Structlog.info "Shutting down application" []) w)
       = (Eff.Raised e, w1) ->
       Eff.isinstance_Exception e = true ->
       Main.shutdown close_database w
       = (Eff.Returned tt,
          Eff.exec (Structlog.error "Error during shutdown"
                      [("error", Eff.exc_str e);
                       ("exc_info", Eff.exc_str e)]) w1)).
Proof.
  split; [| split; [| split]].
  - intros w1 Hinit serve.
    unfold Eff.async_with, MainFixed.lifespan.
    apply bind_raised. unfold Eff.bind at 1. cbn [Logging.info Eff.emit].
    apply bind_raised. unfold MainFixed.startup.
    erewrite try_except_raised; [| apply bind_raised; exact Hinit].
    destruct (Eff.isinstance_Exception e); reflexivity.
  - intros w1 Hclose Hexc. unfold MainFixed.shutdown.
    erewrite try_except_raised.
    + rewrite Hexc. reflexivity.
    + unfold Eff.bind at 1. cbn [Logging.info Eff.emit].
      apply bind_raised. exact Hclose.
  - intros w1 Hinit serve.
    unfold Eff.async_with, Main.lifespan.
    apply bind_raised. unfold Eff.bind at 1. cbn [Eff.get_world].
    unfold Eff.bind at 1. cbn [Structlog.info Eff.emit].
    apply bind_raised. unfold Main.startup.
    erewrite try_except_raised; [| apply bind_raised; exact Hinit].
    destruct (Eff.isinstance_Exception e); reflexivity.
  - intros w1 Hclose Hexc. unfold Main.shutdown.
    erewrite try_except_raised.
    + rewrite Hexc. reflexivity.
    + unfold Eff.bind at 1. cbn [Structlog.info Eff.emit].
      apply bind_raised. exact Hclose.
Qed.

End LifespanFacts.

Lemma lifespan_startup_fatal_shutdown_logged_witness :
  (forall serve,
     Eff.async_with (MainFixed.lifespan database_down database_down) serve fresh_world
     = (Eff.Raised connection_refused,
        Eff.exec (Logging.info "Starting Flowlytix Subscription Server" ;;
                  Logging.error
                    "Application startup failed: connection refused")%eff
                 fresh_world))
  /\ MainFixed.shutdown database_down fresh_world
     = (Eff.Returned tt,
        Eff.exec (Logging.info "Shutting down application" ;;
                  Logging.error "Error during shutdown: connection refused")%eff
                 fresh_world)
  /\ (forall serve,
        Eff.async_with (Main.lifespan database_down database_down) serve fresh_world
        = (Eff.Raised connection_refused,
           Eff.exec (Structlog.info "Starting Flowlytix Subscription Server"
                       [("version", "1.0.0")] ;;
                     Structlog.error "Application startup failed"
                       [("error", "connection refused");
                        ("exc_info", "connection refused")])%eff
                    fresh_world))
  /\ Main.shutdown database_down fresh_world
     = (Eff.Returned tt,
        Eff.exec (Structlog.info "Shutting down application" [] ;;
                  Structlog.error "Error during shutdown"
                    [("error", "connection refused");
                     ("exc_info", "connection refused")])%eff
                 fresh_world).
Proof.
  destruct (lifespan_startup_fatal_shutdown_logged
              database_down database_down connection_refused fresh_world)
    as [H1 [H2 [H3 H4]]].
  split; [| split; [| split]].
  - intros serve. exact (H1 _ eq_refl serve).
  - exact (H2 _ eq_refl eq_refl).
  - intros serve. exact (H3 _ eq_refl serve).
  - exact (H4 _ eq_refl eq_refl).
Defined.

(** A whole service run of [main_fixed.py] whose database opens and then
    fails to close: the run ends normally, with the failure on record. *)
Example lifespan_run_with_failed_close :
  let run := Eff.async_with
               (MainFixed.lifespan (Eff.ret tt) database_down)
               (Eff.ret tt) fresh_world in
  fst run = Eff.Returned tt
  /\ map Eff.event (Eff.log (snd run))
     = ["Starting Flowlytix Subscription Server";
        "Database initialized successfully";
        "Application startup completed";
        "Shutting down application";
        "Error during shutdown: connection refused"].
Proof.
  split; vm_compute; reflexivity.
Qed.

(** ** Pages as a partition of the filtered set *)

Lemma slice_nonneg {A} (l : list A) (s e : Z) :
  0 <= s <= e ->
  PySeq.slice l s e = firstn (Z.to_nat (e - s)) (skipn (Z.to_nat s) l).
Proof.
  intros H. unfold PySeq.slice. rewrite !clamp_nonneg by lia.
  set (n := Z.of_nat (List.length l)).
  destruct (Z.le_gt_cases n s) as [Hs | Hs].
  - rewrite !skipn_all2 by (subst n; lia). now rewrite !firstn_nil.
  - rewrite (Z.min_l s n) by lia.
    destruct (Z.le_gt_cases e n) as [He | He].
    + now rewrite (Z.min_l e n) by lia.
    + rewrite (Z.min_r e n) by lia.
      rewrite !firstn_all2; [reflexivity | |];
        rewrite length_skipn; subst n; lia.
Qed.

Lemma firstn_add {A} (a b : nat) (l : list A) :
  firstn (a + b) l = (firstn a l ++ firstn b (skipn a l))%list.
Proof.
  revert l. induction a as [|a IH]; intros l; [reflexivity |].
  destruct l as [|x l]; simpl.
  - now rewrite firstn_nil.
  - now rewrite IH.
Qed.

Lemma chunks_upto {A} (l : list A) (ps : Z) (k : nat) :
  0 < ps ->
  List.concat (map (fun p => PySeq.slice l ((p - 1) * ps) ((p - 1) * ps + ps))
              (PySeq.range 1 (Z.of_nat k + 1)))
  = firstn (Z.to_nat (Z.of_nat k * ps)) l.
Proof.
  intros Hps. unfold PySeq.range.
  replace (Z.to_nat (Z.of_nat k + 1 - 1)) with k by lia.
  induction k as [|k IH]; [reflexivity |].
  rewrite seq_S, !map_app, List.concat_app, IH. cbn [map List.concat Nat.add].
  rewrite app_nil_r, slice_nonneg by nia.
  replace (Z.to_nat (Z.of_nat (S k) * ps))
    with (Z.to_nat (Z.of_nat k * ps) + Z.to_nat ps)%nat by nia.
  rewrite firstn_add. f_equal. f_equal; [f_equal; nia | f_equal; f_equal; nia].
Qed.

Lemma data_of_ok (p ps : Z) (st se : option string) :
  1 <= p -> 1 <= ps <= 100 ->
  data_of (list_subscriptions p ps st se)
  = PySeq.slice (filtered_subscriptions st se)
                ((p - 1) * ps) ((p - 1) * ps + ps).
Proof.
  intros Hp Hps. now rewrite list_subscriptions_ok by lia.
Qed.

(** X1: for a page size in [1, 100], the data arrays of pages 1 to
    totalPages, put end to end, are the filtered set itself: every
    matching record is on exactly one page, in order. *)
Theorem pages_partition_filtered_set (ps : Z) (st se : option string) :
  1 <= ps <= 100 ->
  exists r,
    list_subscriptions 1 ps st se = Ok r
    /\ pages_upto (totalPages (payload r)) ps st se
       = filtered_subscriptions st se.
Proof.
  intros Hps. eexists. split; [apply list_subscriptions_ok; lia |].
  cbn [payload totalPages]. unfold pages_upto.
  set (l := filtered_subscriptions st se).
  set (n := Z.of_nat (List.length l)).
  set (tp := (n + ps - 1) / ps).
  assert (Hn : 0 <= n) by (subst n; lia).
  assert (Htp : 0 <= tp) by (apply Z.div_pos; lia).
  assert (Hcover : n <= tp * ps).
  { pose proof (Z.div_mod (n + ps - 1) ps ltac:(lia)) as E.
    pose proof (Z.mod_pos_bound (n + ps - 1) ps ltac:(lia)) as B.
    fold tp in E. nia. }
  rewrite (map_ext_in _
             (fun p => PySeq.slice l ((p - 1) * ps) ((p - 1) * ps + ps))).
  - rewrite <- (Z2Nat.id tp Htp), chunks_upto by lia.
    apply firstn_all2. subst n. nia.
  - intros p Hin. apply range_bounds in Hin. apply data_of_ok; lia.
Qed.

Lemma pages_partition_filtered_set_witness :
  exists r,
    list_subscriptions 1 7 (Some "active") (Some "customer 1") = Ok r
    /\ pages_upto (totalPages (payload r)) 7
                  (Some "active") (Some "customer 1")
       = filtered_subscriptions (Some "active") (Some "customer 1").
Proof.
  apply (pages_partition_filtered_set 7 (Some "active") (Some "customer 1")).
  lia.
Defined.

(** X2: on accepted parameters the page holds
    max(0, min(pageSize, totalCount - (page - 1) * pageSize)) records; it
    is empty exactly when page is greater than totalPages, so every page
    from 1 to totalPages has at least one record. *)
Theorem page_length_exact (p ps : Z) (st se : option string) :
  1 <= p -> 1 <= ps <= 100 ->
  exists r,
    list_subscriptions p ps st se = Ok r
    /\ Z.of_nat (List.length (data (payload r)))
       = Z.max 0 (Z.min ps (totalCount (payload r) - (p - 1) * ps))
    /\ (data (payload r) = [] <-> totalPages (payload r) < p).
Proof.
  intros Hp Hps. eexists. split; [apply list_subscriptions_ok; lia |].
  cbn [payload data totalCount totalPages].
  set (n := Z.of_nat (List.length (filtered_subscriptions st se))).
  assert (Hn : 0 <= n) by (subst n; lia).
  assert (Hlen : Z.of_nat (List.length
                   (PySeq.slice (filtered_subscriptions st se)
                                ((p - 1) * ps) ((p - 1) * ps + ps)))
                 = Z.max 0 (Z.min ps (n - (p - 1) * ps))).
  { rewrite slice_length by nia. fold n. lia. }
  split; [exact Hlen |].
  rewrite <- length_zero_iff_nil.
  pose proof (Z.div_mod (n + ps - 1) ps ltac:(lia)) as E.
  pose proof (Z.mod_pos_bound (n + ps - 1) ps ltac:(lia)) as B.
  split; intros H.
  - rewrite H in Hlen. simpl in Hlen. nia.
  - apply Nat2Z.inj. rewrite Hlen. simpl. nia.
Qed.

Lemma page_length_exact_witness :
  exists r,
    list_subscriptions 15 10 (Some "active") None = Ok r
    /\ Z.of_nat (List.length (data (payload r)))
       = Z.max 0 (Z.min 10 (totalCount (payload r) - (15 - 1) * 10))
    /\ (data (payload r) = [] <-> totalPages (payload r) < 15).
Proof.
  apply (page_length_exact 15 10 (Some "active") None); lia.
Defined.

(** ** Validation in front of the body *)

(** X3: the endpoint answers exactly on page >= 1 and pageSize in
    [1, 100] and rejects every other pair at validation; the division by
    pageSize can raise only in the body called on pageSize 0, which the
    validation never lets through. *)
Theorem validation_shields_body (p ps : Z) (st se : option string) :
  ((exists r, list_subscriptions p ps st se = Ok r)
   <-> 1 <= p /\ 1 <= ps <= 100)
  /\ (list_subscriptions p ps st se = Err RequestValidationError
      <-> ~ (1 <= p /\ 1 <= ps <= 100))
  /\ list_subscriptions p ps st se <> Err ZeroDivisionError
  /\ (paginate_body p ps st se = Err ZeroDivisionError <-> ps = 0).
Proof.
  assert (Hbody : paginate_body p ps st se = Err ZeroDivisionError
                  <-> ps = 0).
  { unfold paginate_body. destruct (Z.eqb_spec ps 0); split;
      intros H; try reflexivity; try assumption; try discriminate; lia. }
  destruct (query_valid p ps) eqn:E.
  - apply query_valid_iff in E.
    pose proof (list_subscriptions_ok p ps st se (proj1 E) (proj2 E)) as Hok.
    cbv zeta in Hok.
    split; [| split; [| split]].
    + split; [intros _; exact E | intros _; eexists; exact Hok].
    + rewrite Hok. split; [discriminate | tauto].
    + rewrite Hok. discriminate.
    + exact Hbody.
  - assert (Hno : ~ (1 <= p /\ 1 <= ps <= 100)).
    { intros H. apply query_valid_iff in H. congruence. }
    pose proof (list_subscriptions_rejects p ps st se Hno) as Hrej.
    split; [| split; [| split]].
    + rewrite Hrej. split; [intros [r Hr]; discriminate | tauto].
    + rewrite Hrej. tauto.
    + rewrite Hrej. discriminate.
    + exact Hbody.
Qed.

(** ** Unique ids *)

Lemma str_inj (a b : Z) : PyStr.str a = PyStr.str b -> a = b.
Proof.
  unfold PyStr.str. intros H. apply DecimalZ.to_int_inj.
  assert (E : Some (Z.to_int a) = Some (Z.to_int b)).
  { rewrite <- !NilEmpty.isi. now rewrite H. }
  now injection E.
Qed.

Lemma sorted_lt_NoDup (l : list Z) : StronglySorted Z.lt l -> NoDup l.
Proof.
  induction 1 as [|a l Hs IH Hall]; constructor; [| exact IH].
  intros Hin. rewrite Forall_forall in Hall. specialize (Hall a Hin). lia.
Qed.

Lemma NoDup_map_inj {A B} (f : A -> B) (l : list A) :
  (forall x y, f x = f y -> x = y) -> NoDup l -> NoDup (map f l).
Proof.
  intros Hinj. induction 1 as [|a l Hnin Hnd IH]; simpl; constructor;
    [| exact IH].
  intros Hin. apply in_map_iff in Hin. destruct Hin as [x [Hx Hin]].
  apply Hinj in Hx. subst x. contradiction.
Qed.

(** X4: the id field determines the loop index, for every integer index;
    hence no id occurs twice in the filtered set of any query, nor in the
    data of any response. *)
Theorem ids_are_unique (st se : option string) :
  (forall i j, id (mock_subscription i) = id (mock_subscription j) -> i = j)
  /\ NoDup (ids (filtered_subscriptions st se))
  /\ (forall p ps, NoDup (ids (data_of (list_subscriptions p ps st se)))).
Proof.
  assert (Hall : NoDup (ids (filtered_subscriptions st se))).
  { rewrite filtered_by_index. unfold ids. rewrite map_map.
    apply NoDup_map_inj; [intros x y; apply str_inj |].
    apply sorted_lt_NoDup, filtered_indices_sorted. }
  split; [intros i j; apply str_inj | split; [exact Hall |]].
  intros p ps. unfold list_subscriptions, paginate_body.
  destruct (query_valid p ps); [| constructor].
  destruct (ps =? 0); [constructor |]. cbn [data_of payload data].
  destruct (slice_contiguous (filtered_subscriptions st se)
              ((p - 1) * ps) ((p - 1) * ps + ps)) as [pre [post Hsplit]].
  rewrite Hsplit in Hall. unfold ids in *. rewrite !map_app in Hall.
  apply NoDup_app_remove_l in Hall. now apply NoDup_app_remove_r in Hall.
Qed.

(** ** Search: case and refinement *)

Lemma lower_ascii_idem (c : ascii) :
  PyStr.lower_ascii (PyStr.lower_ascii c) = PyStr.lower_ascii c.
Proof.
  destruct c as [[] [] [] [] [] [] [] []]; reflexivity.
Qed.

Lemma lower_idem (s : string) : PyStr.lower (PyStr.lower s) = PyStr.lower s.
Proof.
  induction s as [|c s IH]; simpl; [reflexivity |].
  now rewrite lower_ascii_idem, IH.
Qed.

Lemma lower_empty_iff (s : string) : PyStr.lower s = "" <-> s = "".
Proof.
  destruct s; simpl; split; intros H; try reflexivity; discriminate.
Qed.

Lemma string_app_assoc (a b c : string) : (a ++ b) ++ c = a ++ (b ++ c).
Proof.
  induction a as [|x a IH]; simpl; [reflexivity | now rewrite IH].
Qed.

Lemma is_substring_trans (a b c : string) :
  is_substring a b -> is_substring b c -> is_substring a c.
Proof.
  intros [p1 [q1 H1]] [p2 [q2 H2]]. exists (p2 ++ p1), (q1 ++ q2).
  rewrite H2, H1. now rewrite !string_app_assoc.
Qed.

Lemma search_matches_lower (q q' : string) (r : SubscriptionRecord) :
  PyStr.lower q = PyStr.lower q' -> search_matches q r = search_matches q' r.
Proof.
  intros H. unfold search_matches. now rewrite H.
Qed.

Lemma filtered_lower_eq (q q' : string) (st : option string) :
  PyStr.lower q = PyStr.lower q' ->
  filtered_subscriptions st (Some q) = filtered_subscriptions st (Some q').
Proof.
  intros H. destruct (string_dec q "") as [-> | Hq].
  - symmetry in H. simpl in H. apply (proj1 (lower_empty_iff q')) in H.
    now subst q'.
  - assert (Hq' : q' <> "").
    { intros ->. apply Hq. exact (proj1 (lower_empty_iff q) H). }
    rewrite !search_filter_step by assumption.
    apply filter_ext. intros r. now apply search_matches_lower.
Qed.

(** X5: the search is case-insensitive in the term: two terms with the
    same lower-cased form give the same response on every page. *)
Theorem search_ignores_case (q q' : string) :
  PyStr.lower q = PyStr.lower q' ->
  forall p ps st,
    list_subscriptions p ps st (Some q) = list_subscriptions p ps st (Some q').
Proof.
  intros H p ps st.
  unfold list_subscriptions, paginate_body.
  now rewrite (filtered_lower_eq q q' st H).
Qed.

Lemma search_ignores_case_witness :
  list_subscriptions 1 10 (Some "active") (Some "FL-0010")
  = list_subscriptions 1 10 (Some "active") (Some "fl-0010").
Proof.
  apply (search_ignores_case "FL-0010" "fl-0010"). reflexivity.
Defined.

Lemma filter_filter_absorb {A} (f g : A -> bool) (l : list A) :
  (forall x, f x = true -> g x = true) ->
  filter f l = filter f (filter g l).
Proof.
  intros H. induction l as [|a l IH]; [reflexivity |]. simpl.
  destruct (f a) eqn:Hf.
  - rewrite (H a Hf). simpl. now rewrite Hf, IH.
  - destruct (g a); simpl; rewrite ?Hf; exact IH.
Qed.

Lemma filter_length_bound {A} (f : A -> bool) (l : list A) :
  (List.length (filter f l) <= List.length l)%nat.
Proof.
  induction l as [|a l IH]; simpl; [lia |]. destruct (f a); simpl; lia.
Qed.

(** X6: refining a search term narrows the result: when the lower-cased
    term q' occurs inside the lower-cased term q, searching q gives the
    search of q inside the result for q', so it returns a part of that
    result and never a larger totalCount. *)
Theorem search_refinement_narrows (q q' : string) (st : option string) :
  q <> "" ->
  is_substring (PyStr.lower q') (PyStr.lower q) ->
  filtered_subscriptions st (Some q)
  = filter (search_matches q) (filtered_subscriptions st (Some q'))
  /\ incl (filtered_subscriptions st (Some q))
          (filtered_subscriptions st (Some q'))
  /\ (List.length (filtered_subscriptions st (Some q))
      <= List.length (filtered_subscriptions st (Some q')))%nat.
Proof.
  intros Hq Hsub.
  assert (E : filtered_subscriptions st (Some q)
              = filter (search_matches q)
                       (filtered_subscriptions st (Some q'))).
  { rewrite (search_filter_step q st Hq).
    destruct (string_dec q' "") as [-> | Hq']; [reflexivity |].
    rewrite (search_filter_step q' st Hq').
    apply filter_filter_absorb. intros r. unfold search_matches.
    rewrite !orb_true_iff, !str_in_spec.
    intros [H | H]; [left | right];
      exact (is_substring_trans _ _ _ Hsub H). }
  split; [exact E | split].
  - rewrite E. apply incl_filter.
  - rewrite E. apply filter_length_bound.
Qed.

Lemma search_refinement_narrows_witness :
  filtered_subscriptions None (Some "Customer 15")
  = filter (search_matches "Customer 15")
           (filtered_subscriptions None (Some "customer 1"))
  /\ incl (filtered_subscriptions None (Some "Customer 15"))
          (filtered_subscriptions None (Some "customer 1"))
  /\ (List.length (filtered_subscriptions None (Some "Customer 15"))
      <= List.length (filtered_subscriptions None (Some "customer 1")))%nat.
Proof.
  apply (search_refinement_narrows "Customer 15" "customer 1" None).
  - discriminate.
  - exists "", "5". reflexivity.
Defined.

(** ** Bounds of the counters *)

Lemma filtered_length_bound (st se : option string) :
  (List.length (filtered_subscriptions st se) <= 200)%nat.
Proof.
  assert (H200 : List.length mock_subscriptions = 200%nat) by reflexivity.
  unfold filtered_subscriptions.
  destruct (PyStr.truthy st), (PyStr.truthy se);
    repeat (etransitivity; [apply filter_length_bound |]); lia.
Qed.

(** X7: on accepted parameters the response echoes page and pageSize,
    totalCount lies between 0 and 200, totalPages between 0 and
    totalCount, and the data array is never longer than totalCount. *)
Theorem counters_bounded (p ps : Z) (st se : option string) :
  1 <= p -> 1 <= ps <= 100 ->
  exists r,
    list_subscriptions p ps st se = Ok r
    /\ page (payload r) = p
    /\ pageSize (payload r) = ps
    /\ 0 <= totalCount (payload r) <= 200
    /\ 0 <= totalPages (payload r) <= totalCount (payload r)
    /\ Z.of_nat (List.length (data (payload r))) <= totalCount (payload r).
Proof.
  intros Hp Hps. eexists. split; [apply list_subscriptions_ok; lia |].
  cbn [payload data page pageSize totalCount totalPages].
  pose proof (filtered_length_bound st se) as Hb.
  set (n := Z.of_nat (List.length (filtered_subscriptions st se))) in *.
  assert (Hn : 0 <= n <= 200) by (subst n; lia).
  split; [reflexivity | split; [reflexivity | split; [exact Hn |]]].
  split.
  - split; [apply Z.div_pos; lia |].
    destruct (Z.eq_dec n 0) as [-> | Hpos].
    + rewrite Z.div_small; lia.
    + apply Z.div_le_upper_bound; nia.
  - assert (0 <= (p - 1) * ps) by nia.
    rewrite slice_length by lia. fold n. lia.
Qed.

Lemma counters_bounded_witness :
  exists r,
    list_subscriptions 3 25 None (Some "fl-") = Ok r
    /\ page (payload r) = 3
    /\ pageSize (payload r) = 25
    /\ 0 <= totalCount (payload r) <= 200
    /\ 0 <= totalPages (payload r) <= totalCount (payload r)
    /\ Z.of_nat (List.length (data (payload r))) <= totalCount (payload r).
Proof.
  apply (counters_bounded 3 25 None (Some "fl-")); lia.
Defined.

(** ** The generator, at every index *)

Ltac split_mod_tests :=
  repeat match goal with
         | |- context [?a mod ?b =? 0] => destruct (Z.eqb_spec (a mod b) 0)
         end.

(** X8: for every integer index the status is active exactly off the
    multiples of 4, expired exactly on the multiples of 12, suspended on
    the other multiples of 4; no fourth value is ever produced. *)
Theorem status_rule (i : Z) :
  (status (mock_subscription i) = "active" <-> i mod 4 <> 0)
  /\ (status (mock_subscription i) = "expired" <-> i mod 12 = 0)
  /\ (status (mock_subscription i) = "suspended"
      <-> i mod 4 = 0 /\ i mod 12 <> 0)
  /\ known_status (status (mock_subscription i)) = true.
Proof.
  cbn [status mock_subscription]. split_mod_tests; cbn [negb];
    (split; [| split; [| split]]); try reflexivity;
    split; intros H; try discriminate; try reflexivity;
    try (Z.div_mod_to_equations; lia).
Qed.

(** X9: for every integer index, maxDevices is 5 on the premium tier and
    3 otherwise, the basic tier always carries the analytics feature and
    the pro tier never does, and devicesConnected lies between 1 and 5,
    so it can exceed a maxDevices of 3 (index 4 has 5 connected). *)
Theorem tier_rule (i : Z) :
  (tier (mock_subscription i) = "premium" <-> i mod 3 = 0)
  /\ (tier (mock_subscription i) = "basic" <-> i mod 3 <> 0 /\ i mod 2 = 0)
  /\ (tier (mock_subscription i) = "pro" <-> i mod 3 <> 0 /\ i mod 2 <> 0)
  /\ (maxDevices (mock_subscription i) = 5
      <-> tier (mock_subscription i) = "premium")
  /\ (maxDevices (mock_subscription i) = 3
      <-> tier (mock_subscription i) <> "premium")
  /\ (tier (mock_subscription i) = "basic" ->
      features (mock_subscription i) = ["core"; "analytics"])
  /\ (tier (mock_subscription i) = "pro" ->
      features (mock_subscription i) = ["core"])
  /\ 1 <= devicesConnected (mock_subscription i) <= 5
  /\ maxDevices (mock_subscription 4)
     < devicesConnected (mock_subscription 4).
Proof.
  pose proof (Z.mod_pos_bound i 5 ltac:(lia)) as B5.
  split; [| split; [| split; [| split; [| split; [| split;
    [| split; [| split]]]]]]].
  1-8: cbn [tier maxDevices features devicesConnected mock_subscription].
  1-8: split_mod_tests.
  all: try lia.
  all: try (vm_compute; reflexivity).
  all: first [ split; intros H | intros H ].
  all: try discriminate; try reflexivity; try congruence; try lia.
Qed.

Lemma format_two_digits (d : Z) :
  10 <= d <= 99 -> PyStr.format_0d 2 d = PyStr.str d.
Proof.
  intros H.
  assert (Hall : forallb (fun k => String.eqb (PyStr.format_0d 2 k)
                                              (PyStr.str k))
                         (PySeq.range 10 100) = true)
    by (vm_compute; reflexivity).
  rewrite forallb_forall in Hall. apply String.eqb_eq, Hall.
  unfold PySeq.range. apply in_map_iff.
  exists (Z.to_nat (d - 10)). split; [lia |]. apply in_seq. lia.
Qed.

(** X10: for every integer index, the start date is day d of January
    2024 and the expiry date the same day d of December 2024, with d
    between 15 and 29; the last activity is a day between 20 and 29 of
    January 2024; createdAt repeats startsAt, and lastSyncAt and
    updatedAt repeat lastActivity. *)
Theorem timestamp_rule (i : Z) :
  (exists d, 15 <= d <= 29
     /\ startsAt (mock_subscription i)
        = "2024-01-" ++ PyStr.str d ++ "T10:00:00Z"
     /\ expiresAt (mock_subscription i)
        = "2024-12-" ++ PyStr.str d ++ "T10:00:00Z")
  /\ (exists d, 20 <= d <= 29
        /\ lastActivity (mock_subscription i)
           = "2024-01-" ++ PyStr.str d ++ "T14:30:00Z")
  /\ createdAt (mock_subscription i) = startsAt (mock_subscription i)
  /\ lastSyncAt (mock_subscription i) = lastActivity (mock_subscription i)
  /\ updatedAt (mock_subscription i) = lastActivity (mock_subscription i).
Proof.
  cbn [startsAt expiresAt lastActivity createdAt lastSyncAt updatedAt
       mock_subscription].
  pose proof (Z.mod_pos_bound i 15 ltac:(lia)) as B15.
  pose proof (Z.mod_pos_bound i 10 ltac:(lia)) as B10.
  split; [| split; [| split; [| split]]]; try reflexivity.
  - exists (15 + i mod 15). rewrite format_two_digits by lia.
    split; [lia | split; reflexivity].
  - exists (20 + i mod 10). rewrite format_two_digits by lia.
    split; [lia | reflexivity].
Qed.

Lemma index_list_eqb_eq (l1 l2 : list Z) :
  index_list_eqb l1 l2 = true -> l1 = l2.
Proof.
  revert l2. induction l1 as [|a l1 IH]; intros [|b l2]; simpl;
    try discriminate; [reflexivity |].
  rewrite andb_true_iff, Z.eqb_eq. intros [-> H]. now rewrite (IH l2 H).
Qed.

(** X11: a full license key identifies one subscription: searching for
    the licenseKey of any record of the candidate set, in either case,
    returns that record and no other. *)
Theorem license_key_search_is_exact (r : SubscriptionRecord) :
  In r mock_subscriptions ->
  filtered_subscriptions None (Some (licenseKey r)) = [r]
  /\ filtered_subscriptions None (Some (PyStr.lower (licenseKey r))) = [r].
Proof.
  intros Hin. unfold mock_subscriptions in Hin.
  apply in_map_iff in Hin. destruct Hin as [i [<- Hi]].
  assert (Hall : forallb
            (fun k => index_list_eqb
                        (filtered_indices
                           None (Some (licenseKey (mock_subscription k))))
                        [k])
            (PySeq.range 1 201) = true) by (vm_compute; reflexivity).
  rewrite forallb_forall in Hall.
  pose proof (index_list_eqb_eq _ _ (Hall i Hi)) as E.
  assert (E1 : filtered_subscriptions
                 None (Some (licenseKey (mock_subscription i)))
               = [mock_subscription i])
    by (rewrite filtered_by_index, E; reflexivity).
  split; [exact E1 |].
  rewrite <- E1. apply filtered_lower_eq, lower_idem.
Qed.

Lemma license_key_search_is_exact_witness :
  filtered_subscriptions None (Some (licenseKey (mock_subscription 12)))
  = [mock_subscription 12]
  /\ filtered_subscriptions
       None (Some (PyStr.lower (licenseKey (mock_subscription 12))))
     = [mock_subscription 12].
Proof.
  apply (license_key_search_is_exact (mock_subscription 12)).
  unfold mock_subscriptions. apply in_map. vm_compute. tauto.
Defined.

(** ** Lifespan: outcomes and the state *)

Section LifespanOutcomes.

Variables init_database close_database : Eff.M unit.

Lemma try_except_outcome {A} (body : Eff.M A)
    (handler : Eff.PyExc -> Eff.M A) (w : Eff.World) :
  Eff.try_except_Exception body handler w
  = match body w with
    | (Eff.Returned a, w1) => (Eff.Returned a, w1)
    | (Eff.Raised e, w1) =>
        if Eff.isinstance_Exception e then handler e w1
        else (Eff.Raised e, w1)
    end.
Proof. reflexivity. Qed.

(** X13: in both entry points the startup block returns normally exactly
    when [init_database] does, and the shutdown block raises exactly
    when [close_database] raises a value that is not an [Exception]
    (the very value it raised): a failed initialisation is never reported
    as a success, and no [Exception] ever leaves the shutdown. *)
Theorem lifespan_outcomes (e : Eff.PyExc) (w : Eff.World) :
  ((exists w', MainFixed.startup init_database w = (Eff.Returned tt, w'))
   <-> exists w1, init_database w = (Eff.Returned tt, w1))
  /\ ((exists w', MainFixed.shutdown close_database w = (Eff.Raised e, w'))
      <-> (exists w1,
             close_database
               (Eff.exec (Logging.info "Shutting down application") w)
             = (Eff.Raised e, w1))
          /\ Eff.isinstance_Exception e = false)
  /\ ((exists w', Main.startup init_database w = (Eff.Returned tt, w'))
      <-> exists w1, init_database w = (Eff.Returned tt, w1))
  /\ ((exists w', Main.shutdown close_database w = (Eff.Raised e, w'))
      <-> (exists w1,
             close_database
               (Eff.exec (Structlog.info "Shutting down application" []) w)
             = (Eff.Raised e, w1))
          /\ Eff.isinstance_Exception e = false).
Proof.
  split; [| split; [| split]].
  - unfold MainFixed.startup. rewrite try_except_outcome.
    unfold Eff.bind at 1.
    destruct (init_database w) as [[[]|e0] w1]; cbn.
    + split; intros _; eexists; reflexivity.
    + destruct (Eff.isinstance_Exception e0); cbn;
        split; intros [w' H]; discriminate.
  - unfold MainFixed.shutdown. rewrite try_except_outcome.
    unfold Eff.bind at 1. cbn [Logging.info Eff.emit].
    unfold Eff.bind at 1. unfold Eff.exec. cbn [snd].
    destruct (close_database _) as [[[]|e0] w1]; cbn.
    + split; [intros [w' H]; discriminate
             | intros [[w' H] _]; discriminate].
    + destruct (Eff.isinstance_Exception e0) eqn:Ex; cbn.
      * split; [intros [w' H]; discriminate |].
        intros [[w' H] Hf]. injection H as -> _. congruence.
      * split.
        -- intros [w' H]. injection H as -> _.
           split; [eexists; reflexivity | exact Ex].
        -- intros [[w' H] _]. injection H as -> _. eexists; reflexivity.
  - unfold Main.startup. rewrite try_except_outcome.
    unfold Eff.bind at 1.
    destruct (init_database w) as [[[]|e0] w1]; cbn.
    + split; intros _; eexists; reflexivity.
    + destruct (Eff.isinstance_Exception e0); cbn;
        split; intros [w' H]; discriminate.
  - unfold Main.shutdown. rewrite try_except_outcome.
    unfold Eff.bind at 1. cbn [Structlog.info Eff.emit].
    unfold Eff.bind at 1. unfold Eff.exec. cbn [snd].
    destruct (close_database _) as [[[]|e0] w1]; cbn.
    + split; [intros [w' H]; discriminate
             | intros [[w' H] _]; discriminate].
    + destruct (Eff.isinstance_Exception e0) eqn:Ex; cbn.
      * split; [intros [w' H]; discriminate |].
        intros [[w' H] Hf]. injection H as -> _. congruence.
      * split.
        -- intros [w' H]. injection H as -> _.
           split; [eexists; reflexivity | exact Ex].
        -- intros [[w' H] _]. injection H as -> _. eexists; reflexivity.
Qed.

End LifespanOutcomes.

Section LifespanFrame.

Variables init_database close_database : Eff.M unit.
Variable P : Eff.World -> Prop.
Hypothesis P_logged : forall r w, P w -> P (Eff.logged r w).

Lemma preserves_ret {A} (a : A) : preserves P (Eff.ret a).
Proof. intros w H. exact H. Qed.

Lemma preserves_raise {A} (e : Eff.PyExc) : preserves P (@Eff.raise A e).
Proof. intros w H. exact H. Qed.

Lemma preserves_emit (r : Eff.LogRecord) : preserves P (Eff.emit r).
Proof. intros w H. apply P_logged, H. Qed.

Lemma preserves_bind {A B} (m : Eff.M A) (k : A -> Eff.M B) :
  preserves P m -> (forall a, preserves P (k a)) ->
  preserves P (Eff.bind m k).
Proof.
  intros Hm Hk w H. specialize (Hm w H).
  unfold Eff.exec, Eff.bind in *.
  destruct (m w) as [[a|e] w1]; cbn [snd] in *; [apply Hk, Hm | exact Hm].
Qed.

Lemma preserves_try {A} (body : Eff.M A) (handler : Eff.PyExc -> Eff.M A) :
  preserves P body -> (forall e, preserves P (handler e)) ->
  preserves P (Eff.try_except_Exception body handler).
Proof.
  intros Hb Hh w H. specialize (Hb w H).
  unfold Eff.exec, Eff.try_except_Exception in *.
  destruct (body w) as [[a|e] w1]; cbn [snd] in *; [exact Hb |].
  destruct (Eff.isinstance_Exception e); [apply Hh, Hb | exact Hb].
Qed.

Lemma preserves_async_with (cm : Eff.M (Eff.M unit)) (body rest : Eff.M unit) :
  preserves P cm ->
  (forall w k w', cm w = (Eff.Returned k, w') -> k = rest) ->
  preserves P body -> preserves P rest ->
  preserves P (Eff.async_with cm body).
Proof.
  intros Hcm Hk Hbody Hrest w H. specialize (Hcm w H).
  unfold Eff.exec, Eff.async_with, Eff.bind in *.
  destruct (cm w) as [[k|e] w1] eqn:E; cbn [snd] in *; [| exact Hcm].
  rewrite (Hk w k w1 E).
  specialize (Hbody w1 Hcm). unfold Eff.exec in Hbody.
  destruct (body w1) as [[[]|e] w2]; cbn [snd] in *; [| exact Hbody].
  apply Hrest, Hbody.
Qed.

Lemma bind_yields {A} (m : Eff.M A) (rest : Eff.M unit)
    (w w' : Eff.World) (k : Eff.M unit) :
  Eff.bind m (fun _ => Eff.yield_then rest) w = (Eff.Returned k, w') ->
  k = rest.
Proof.
  unfold Eff.bind, Eff.yield_then, Eff.ret.
  destruct (m w) as [[a|e] w1]; intros H; [| discriminate].
  now injection H as <- _.
Qed.

(** X14: the lifespan managers themselves touch nothing but the log: a
    property of the ambient state that survives the writing of a log
    record and that [init_database], the serving phase and
    [close_database] each keep is kept by the whole run, however it
    ends. *)
Theorem lifespan_keeps_invariant (serve : Eff.M unit) :
  preserves P init_database ->
  preserves P serve ->
  preserves P close_database ->
  preserves P (Eff.async_with
                 (MainFixed.lifespan init_database close_database) serve)
  /\ preserves P (Eff.async_with
                    (Main.lifespan init_database close_database) serve).
Proof.
  intros Hinit Hserve Hclose. split.
  - apply (preserves_async_with _ _ (MainFixed.shutdown close_database)).
    + unfold MainFixed.lifespan, MainFixed.startup.
      repeat first [ apply preserves_bind; [| intros ?]
                   | apply preserves_try; [| intros ?]
                   | apply preserves_emit
                   | apply preserves_raise
                   | apply preserves_ret
                   | exact Hinit ].
    + intros w k w' H. unfold MainFixed.lifespan in H.
      unfold Eff.bind at 1 in H. cbn [Logging.info Eff.emit] in H.
      exact (bind_yields _ _ _ _ _ H).
    + exact Hserve.
    + unfold MainFixed.shutdown.
      repeat first [ apply preserves_bind; [| intros ?]
                   | apply preserves_try; [| intros ?]
                   | apply preserves_emit
                   | exact Hclose ].
  - apply (preserves_async_with _ _ (Main.shutdown close_database)).
    + unfold Main.lifespan, Main.startup.
      repeat first [ apply preserves_bind; [| intros ?]
                   | apply preserves_try; [| intros ?]
                   | apply preserves_emit
                   | apply preserves_raise
                   | apply preserves_ret
                   | exact Hinit
                   | (intros w0 H0; exact H0) ].
    + intros w k w' H. unfold Main.lifespan in H.
      unfold Eff.bind at 1 in H. cbn [Eff.get_world] in H.
      unfold Eff.bind at 1 in H. cbn [Structlog.info Eff.emit] in H.
      exact (bind_yields _ _ _ _ _ H).
    + exact Hserve.
    + unfold Main.shutdown.
      repeat first [ apply preserves_bind; [| intros ?]
                   | apply preserves_try; [| intros ?]
                   | apply preserves_emit
                   | exact Hclose ].
Qed.

End LifespanFrame.

Lemma lifespan_keeps_invariant_witness :
  Eff.db_connected
    (Eff.exec (Eff.async_with
                 (MainFixed.lifespan database_down (Eff.ret tt))
                 (Eff.ret tt)) fresh_world) = false
  /\ Eff.db_connected
       (Eff.exec (Eff.async_with
                    (Main.lifespan database_down (Eff.ret tt))
                    (Eff.ret tt)) fresh_world) = false.
Proof.
  destruct (lifespan_keeps_invariant
              database_down (Eff.ret tt)
              (fun w => Eff.db_connected w = false)
              (fun r w H => H)
              (Eff.ret tt)
              (fun w H => H) (fun w H => H) (fun w H => H)) as [H1 H2].
  split; [exact (H1 fresh_world eq_refl) | exact (H2 fresh_world eq_refl)].
Defined.

(** ** Counts by status *)

Lemma three_way_filter_lengths {A} (f g h : A -> bool) (l : list A) :
  (forall x, In x l ->
     (f x = true /\ g x = false /\ h x = false)
     \/ (f x = false /\ g x = true /\ h x = false)
     \/ (f x = false /\ g x = false /\ h x = true)) ->
  (List.length (filter f l) + List.length (filter g l)
   + List.length (filter h l) = List.length l)%nat.
Proof.
  induction l as [|a l IH]; intros H; [reflexivity |].
  assert (IH' := IH (fun x Hx => H x (or_intror Hx))).
  destruct (H a (or_introl eq_refl)) as [(Hf & Hg & Hh) | [(Hf & Hg & Hh)
                                                          | (Hf & Hg & Hh)]];
    simpl; rewrite Hf, Hg, Hh; simpl; lia.
Qed.

(** X15: whatever the search term, the three status filters split the
    result of the unfiltered query: the totalCount values for active,
    expired and suspended add up to the totalCount without a status. *)
Theorem status_counts_add_up (se : option string) :
  (List.length (filtered_subscriptions (Some "active") se)
   + List.length (filtered_subscriptions (Some "expired") se)
   + List.length (filtered_subscriptions (Some "suspended") se)
   = List.length (filtered_subscriptions None se))%nat.
Proof.
  rewrite !status_filter_step by discriminate.
  apply three_way_filter_lengths. intros r Hin.
  pose proof (mock_status_known r (filtered_incl _ _ r Hin)) as Hk.
  unfold known_status in Hk. unfold status_matches.
  rewrite !orb_true_iff, !String.eqb_eq in Hk.
  destruct Hk as [[-> | ->] | ->]; cbn; tauto.
Qed.

(** ** The handler over the object store *)

Lemma heap_bind_done {A B} (m : Heap.H A) (k : A -> Heap.H B)
    (a : A) (s s' : Heap.Store) :
  m s = (Heap.Done a, s') -> Heap.bind m k s = k a s'.
Proof.
  intros E. unfold Heap.bind. now rewrite E.
Qed.

Lemma nth_error_grow {A} (s t : list A) (n : nat) (x : A) :
  nth_error s n = Some x -> nth_error (s ++ t)%list n = Some x.
Proof.
  intros E. rewrite nth_error_app1; [exact E |].
  apply nth_error_Some. congruence.
Qed.

Lemma points_to_grow (s t : Heap.Store) (items : list nat)
    (rs : list SubscriptionRecord) :
  Forall2 (points_to s) items rs -> Forall2 (points_to (s ++ t)%list) items rs.
Proof.
  induction 1; constructor; [now apply nth_error_grow | assumption].
Qed.

Lemma holds_list_grow (s t : Heap.Store) (ref : nat)
    (rs : list SubscriptionRecord) :
  holds_list s ref rs -> holds_list (s ++ t)%list ref rs.
Proof.
  intros [items [E F]]. exists items.
  split; [now apply nth_error_grow | now apply points_to_grow].
Qed.

Lemma comprehension_new (g : Z -> SubscriptionRecord) (l : list Z)
    (s : Heap.Store) :
  Heap.comprehension
    (fun i => d <- Heap.new (Heap.DictObj (g i)) ;; Heap.ret (Some d))%heap
    l s
  = (Heap.Done (seq (List.length s) (List.length l)),
     (s ++ map (fun i => Heap.DictObj (g i)) l)%list).
Proof.
  revert s. induction l as [|i l IH]; intros s.
  - simpl. unfold Heap.ret. now rewrite app_nil_r.
  - cbn [Heap.comprehension]. unfold Heap.bind at 1. unfold Heap.bind at 1.
    cbn [Heap.new Heap.ret]. unfold Heap.bind. rewrite IH.
    rewrite length_app, Nat.add_1_r, <- app_assoc. reflexivity.
Qed.

Lemma fresh_dicts_point (g : Z -> SubscriptionRecord) (l : list Z)
    (s t : Heap.Store) :
  Forall2 (points_to (s ++ map (fun i => Heap.DictObj (g i)) l ++ t)%list)
          (seq (List.length s) (List.length l)) (map g l).
Proof.
  revert s. induction l as [|i l IH]; intros s; [constructor |].
  cbn [List.length seq map]. constructor.
  - unfold points_to. rewrite nth_error_app2 by lia.
    now rewrite Nat.sub_diag.
  - specialize (IH (s ++ [Heap.DictObj (g i)])%list).
    rewrite length_app, Nat.add_1_r, <- app_assoc in IH. exact IH.
Qed.

Lemma build_mock_subscriptions_spec (s : Heap.Store) :
  exists ref fresh,
    build_mock_subscriptions s = (Heap.Done ref, (s ++ fresh)%list)
    /\ holds_list (s ++ fresh)%list ref mock_subscriptions.
Proof.
  unfold build_mock_subscriptions.
  set (l := PySeq.range 1 201).
  set (dicts := map (fun i => Heap.DictObj (mock_subscription i)) l).
  set (items := seq (List.length s) (List.length l)).
  exists (List.length (s ++ dicts)%list), (dicts ++ [Heap.ListObj items])%list.
  split.
  - erewrite heap_bind_done by apply comprehension_new.
    unfold Heap.new. fold l dicts items. now rewrite app_assoc.
  - exists items. split.
    + rewrite app_assoc, nth_error_app2 by lia. now rewrite Nat.sub_diag.
    + apply fresh_dicts_point.
Qed.

Lemma comprehension_keep (keep : SubscriptionRecord -> bool)
    (s : Heap.Store) (items : list nat) (rs : list SubscriptionRecord) :
  Forall2 (points_to s) items rs ->
  exists kept,
    Heap.comprehension
      (fun d => r <- Heap.get_dict d ;;
                Heap.ret (if keep r then Some d else None))%heap
      items s
    = (Heap.Done kept, s)
    /\ Forall2 (points_to s) kept (filter keep rs).
Proof.
  induction 1 as [|d r items rs Hd Hrest [kept [E F]]].
  - exists []. split; [reflexivity | constructor].
  - exists (if keep r then d :: kept else kept). split.
    + cbn [Heap.comprehension]. unfold Heap.bind at 1. unfold Heap.bind at 1.
      unfold Heap.get_dict. rewrite Hd. cbn [Heap.ret].
      erewrite heap_bind_done by exact E.
      unfold Heap.ret. now destruct (keep r).
    + simpl. destruct (keep r); [constructor |]; assumption.
Qed.

Lemma comprehension_read (s : Heap.Store) (items : list nat)
    (rs : list SubscriptionRecord) :
  Forall2 (points_to s) items rs ->
  Heap.comprehension
    (fun ref => r <- Heap.get_dict ref ;; Heap.ret (Some r))%heap items s
  = (Heap.Done rs, s).
Proof.
  induction 1 as [|d r items rs Hd Hrest IH]; [reflexivity |].
  cbn [Heap.comprehension]. unfold Heap.bind at 1. unfold Heap.bind at 1.
  unfold Heap.get_dict. rewrite Hd. cbn [Heap.ret].
  erewrite heap_bind_done by exact IH. reflexivity.
Qed.

Lemma filter_list_spec (keep : SubscriptionRecord -> bool)
    (s : Heap.Store) (ref : nat) (rs : list SubscriptionRecord) :
  holds_list s ref rs ->
  exists ref' fresh,
    filter_list keep ref s = (Heap.Done ref', (s ++ fresh)%list)
    /\ holds_list (s ++ fresh)%list ref' (filter keep rs).
Proof.
  intros [items [E F]].
  destruct (comprehension_keep keep s items rs F) as [kept [Ek Fk]].
  exists (List.length s), [Heap.ListObj kept]. split.
  - unfold filter_list.
    erewrite heap_bind_done by (unfold Heap.get_list; rewrite E; reflexivity).
    erewrite heap_bind_done by exact Ek. reflexivity.
  - exists kept. split.
    + rewrite nth_error_app2 by lia. now rewrite Nat.sub_diag.
    + now apply points_to_grow.
Qed.

Lemma Forall2_firstn {A B} (P : A -> B -> Prop) (n : nat)
    (l1 : list A) (l2 : list B) :
  Forall2 P l1 l2 -> Forall2 P (firstn n l1) (firstn n l2).
Proof.
  intros F. revert n. induction F; intros [|n]; simpl; constructor; auto.
Qed.

Lemma Forall2_skipn {A B} (P : A -> B -> Prop) (n : nat)
    (l1 : list A) (l2 : list B) :
  Forall2 P l1 l2 -> Forall2 P (skipn n l1) (skipn n l2).
Proof.
  intros F. revert n. induction F; intros [|n]; simpl; auto.
Qed.

Lemma Forall2_slice {A B} (P : A -> B -> Prop) (a b : Z)
    (l1 : list A) (l2 : list B) :
  Forall2 P l1 l2 -> Forall2 P (PySeq.slice l1 a b) (PySeq.slice l2 a b).
Proof.
  intros F. unfold PySeq.slice. rewrite (Forall2_length F).
  now apply Forall2_firstn, Forall2_skipn.
Qed.

Lemma optional_filter_spec (o : option string)
    (f : string -> SubscriptionRecord -> bool)
    (s : Heap.Store) (ref : nat) (rs : list SubscriptionRecord) :
  holds_list s ref rs ->
  exists ref' fresh,
    match PyStr.truthy o with
    | Some x => filter_list (f x) ref
    | None => Heap.ret ref
    end s = (Heap.Done ref', (s ++ fresh)%list)
    /\ holds_list (s ++ fresh)%list ref'
         match PyStr.truthy o with
         | Some x => filter (f x) rs
         | None => rs
         end.
Proof.
  intros Hl. destruct (PyStr.truthy o) as [x|].
  - now apply filter_list_spec.
  - exists ref, []. rewrite app_nil_r. split; [reflexivity | exact Hl].
Qed.

Lemma encode_spec (d : ResponseDict) (s : Heap.Store)
    (rs : list SubscriptionRecord) :
  holds_list s (r_data d) rs ->
  encode d s
  = (Heap.Done {| success := r_success d;
                  payload := {| data := rs;
                                totalCount := r_totalCount d;
                                page := r_page d;
                                pageSize := r_pageSize d;
                                totalPages := r_totalPages d |};
                  message := r_message d |}, s).
Proof.
  intros [items [E F]]. unfold encode.
  erewrite heap_bind_done by (unfold Heap.get_list; rewrite E; reflexivity).
  erewrite heap_bind_done by (apply comprehension_read; exact F).
  reflexivity.
Qed.

(** The response document is the one [list_subscriptions] computes, in
    whatever store the call starts, and the call only adds objects. *)
Lemma get_subscriptions_paginated_refines (p ps : Z) (st se : option string)
    (s : Heap.Store) :
  exists fresh,
    get_subscriptions_paginated p ps st se s
    = (Heap.of_result (list_subscriptions p ps st se), (s ++ fresh)%list).
Proof.
  unfold get_subscriptions_paginated, list_subscriptions.
  destruct (query_valid p ps) eqn:V.
  2: { exists (@nil Heap.Obj). rewrite app_nil_r. reflexivity. }
  apply query_valid_iff in V. destruct V as [Hp Hps].
  destruct (build_mock_subscriptions_spec s) as (r0 & f0 & E0 & L0).
  destruct (optional_filter_spec st status_matches _ _ _ L0)
    as (r1 & f1 & E1 & L1).
  destruct (optional_filter_spec se search_matches _ _ _ L1)
    as (r2 & f2 & E2 & L2).
  fold (filtered_subscriptions st se) in L2.
  destruct L2 as (items & Ei & Fi).
  set (s2 := (((s ++ f0) ++ f1) ++ f2)%list) in *.
  set (start_index := (p - 1) * ps).
  set (page_items := PySeq.slice items start_index (start_index + ps)).
  set (page_records := PySeq.slice (filtered_subscriptions st se)
                                   start_index (start_index + ps)).
  assert (Fp : Forall2 (points_to s2) page_items page_records)
    by (apply Forall2_slice, Fi).
  exists (f0 ++ f1 ++ f2 ++ [Heap.ListObj page_items])%list.
  assert (Hz : (ps =? 0) = false) by (apply Z.eqb_neq; lia).
  assert (Hbody :
    handler_body p ps st se s
    = (Heap.Done
         {| r_success := true;
            r_data := List.length s2;
            r_totalCount := Z.of_nat (List.length items);
            r_page := p;
            r_pageSize := ps;
            r_totalPages := (Z.of_nat (List.length items) + ps - 1) / ps;
            r_message := "Retrieved "
                           ++ PyStr.str (Z.of_nat (List.length page_items))
                           ++ " subscriptions" |},
       (s2 ++ [Heap.ListObj page_items])%list)).
  { unfold handler_body.
    erewrite heap_bind_done by exact E0.
    erewrite heap_bind_done by exact E1.
    erewrite heap_bind_done by exact E2.
    erewrite heap_bind_done
      by (unfold Heap.get_list; fold s2; rewrite Ei; reflexivity).
    cbv zeta. rewrite Hz. fold start_index page_items.
    unfold Heap.bind at 1. cbn [Heap.new].
    erewrite heap_bind_done
      by (unfold Heap.get_list; fold s2;
          rewrite nth_error_app2 by lia; rewrite Nat.sub_diag;
          reflexivity).
    reflexivity. }
  erewrite heap_bind_done by exact Hbody.
  rewrite (encode_spec _ _ page_records).
  - unfold paginate_body. rewrite Hz.
    cbn [r_success r_data r_totalCount r_page r_pageSize r_totalPages
         r_message Heap.of_result].
    fold start_index page_records.
    rewrite (Forall2_length Fi), (Forall2_length Fp).
    unfold s2. now rewrite <- !app_assoc.
  - cbn [r_data]. exists page_items. split.
    + rewrite nth_error_app2 by lia. now rewrite Nat.sub_diag.
    + apply points_to_grow, Fp.
Qed.

(** Serving a list found in the store is a different matter: the answer
    follows the store. *)
Lemma serve_shared_list_follows_store :
  exists s1 s2,
    fst (serve_shared_list s1) = Heap.Done []
    /\ fst (serve_shared_list s2) = Heap.Done [mock_subscription 1].
Proof.
  exists [Heap.ListObj []],
         [Heap.ListObj [1%nat]; Heap.DictObj (mock_subscription 1)].
  split; reflexivity.
Qed.

(** C7: two calls with the same (page, pageSize, status, search) give
    the same response document, whatever objects earlier code left in
    the store and also when the second call runs in the store the first
    one leaves: the call reads only the objects it creates itself (the
    candidate set, rebuilt from the loop indices 1..200 on every call),
    it changes no object that existed before, and its document is a
    function of the four arguments alone. *)
Theorem get_subscriptions_paginated_deterministic
    (p ps : Z) (st se : option string) (s1 s2 : Heap.Store) :
  fst (get_subscriptions_paginated p ps st se s1)
  = fst (get_subscriptions_paginated p ps st se s2)
  /\ fst (get_subscriptions_paginated p ps st se
            (snd (get_subscriptions_paginated p ps st se s1)))
     = fst (get_subscriptions_paginated p ps st se s1)
  /\ (exists fresh,
        snd (get_subscriptions_paginated p ps st se s1) = (s1 ++ fresh)%list)
  /\ fst (get_subscriptions_paginated p ps st se s1)
     = Heap.of_result (list_subscriptions p ps st se)
  /\ (exists ref fresh,
        build_mock_subscriptions s1 = (Heap.Done ref, (s1 ++ fresh)%list)
        /\ holds_list (s1 ++ fresh)%list ref
             (map mock_subscription (PySeq.range 1 201))).
Proof.
  destruct (get_subscriptions_paginated_refines p ps st se s1) as [f1 E1].
  destruct (get_subscriptions_paginated_refines p ps st se s2) as [f2 E2].
  destruct (get_subscriptions_paginated_refines p ps st se (s1 ++ f1)%list)
    as [f3 E3].
  rewrite E1, E2. cbn [fst snd]. rewrite E3. cbn [fst].
  split; [reflexivity | split; [reflexivity |]].
  split; [now exists f1 | split; [reflexivity |]].
  apply build_mock_subscriptions_spec.
Qed.

(** ** The lifespan managers as generators *)

Ltac unfold_eff :=
  unfold Eff.bind, Eff.ret, Eff.raise, Eff.emit, Eff.get_world; cbn.

Ltac case_isinstance :=
  try match goal with
      | |- context [Eff.isinstance_Exception ?e] =>
          destruct (Eff.isinstance_Exception e); cbn; unfold_eff
      end.

Section GeneratorRuns.

Variables init_database close_database : Eff.M unit.

(** Under the protocol of [asynccontextmanager] the generators behave as
    the two-phase managers [MainFixed.lifespan] and [Main.lifespan]
    driven by [Eff.async_with]. *)
Lemma generator_lifespans_refine (serve : Eff.M unit) (w : Eff.World) :
  Gen.async_with
    (Generators.MainFixed.lifespan init_database close_database) serve w
  = Eff.async_with (MainFixed.lifespan init_database close_database) serve w
  /\ Gen.async_with
       (Generators.Main.lifespan init_database close_database) serve w
     = Eff.async_with (Main.lifespan init_database close_database) serve w.
Proof.
  split.
  - unfold Gen.async_with, Gen.aenter, Gen.aexit, Eff.async_with,
      Generators.MainFixed.lifespan, MainFixed.lifespan, MainFixed.startup,
      MainFixed.shutdown, Eff.yield_then, Eff.try_except_Exception,
      Logging.info, Logging.error.
    cbn. unfold_eff.
    destruct (init_database _) as [[[]|e0] w1]; cbn; unfold_eff;
      [| case_isinstance; reflexivity].
    destruct (serve _) as [[[]|e1] w2]; cbn; unfold_eff; [| reflexivity].
    destruct (close_database _) as [[[]|e2] w3]; cbn; unfold_eff;
      [reflexivity | case_isinstance; reflexivity].
  - unfold Gen.async_with, Gen.aenter, Gen.aexit, Eff.async_with,
      Generators.Main.lifespan, Generators.Main.banner, Main.lifespan,
      Main.startup, Main.shutdown, Eff.yield_then,
      Eff.try_except_Exception, Structlog.info, Structlog.error.
    cbn. unfold_eff.
    destruct (init_database _) as [[[]|e0] w1]; cbn; unfold_eff;
      [| case_isinstance; reflexivity].
    destruct (serve _) as [[[]|e1] w2]; cbn; unfold_eff; [| reflexivity].
    destruct (close_database _) as [[[]|e2] w3]; cbn; unfold_eff;
      [reflexivity | case_isinstance; reflexivity].
Qed.

(** Where the [yield] stands inside the [try], the handler does get the
    exception of the body, which is then suppressed. *)
Lemma guarded_handles_body_failure (cleanup serve : Eff.M unit)
    (e : Eff.PyExc) (w w1 : Eff.World) :
  serve w = (Eff.Raised e, w1) ->
  Eff.isinstance_Exception e = true ->
  Gen.async_with (Generators.guarded cleanup) serve w
  = Eff.bind cleanup (fun _ => Eff.ret tt) w1.
Proof.
  intros Hs He. unfold Gen.async_with, Gen.aenter, Generators.guarded.
  cbn. unfold_eff. rewrite Hs. unfold Gen.aexit. cbn. rewrite He.
  unfold_eff. destruct (cleanup w1) as [[[]|e1] w2]; reflexivity.
Qed.

(** X12: in both lifespan managers the [yield] stands outside every
    [try]: when the startup succeeded and the serving phase raises, the
    exception thrown in at the [yield] meets no handler and leaves the
    manager at once, in the state the serving phase left, so nothing of
    the shutdown block runs: [close_database] is not called and nothing
    more is logged. *)
Theorem serve_failure_skips_shutdown
    (serve : Eff.M unit) (e : Eff.PyExc) (w w1 w2 : Eff.World) :
  (init_database
     (Eff.exec (Logging.info "Starting Flowlytix Subscription Server") w)
   = (Eff.Returned tt, w1) ->
   serve (Eff.exec (Logging.info "Database initialized successfully" ;;
                    Logging.info "Application startup completed")%eff w1)
   = (Eff.Raised e, w2) ->
   Gen.async_with
     (Generators.MainFixed.lifespan init_database close_database) serve w
   = (Eff.Raised e, w2))
  /\ (init_database
       (Eff.exec (Structlog.info "Starting Flowlytix Subscription Server"
                    [("version", Eff.settings_version w)]) w)
     = (Eff.Returned tt, w1) ->
     serve (Eff.exec (Structlog.info "Database initialized successfully" [] ;;
                      Structlog.info "Application startup completed" [])%eff
                     w1)
     = (Eff.Raised e, w2) ->
     Gen.async_with
       (Generators.Main.lifespan init_database close_database) serve w
     = (Eff.Raised e, w2)).
Proof.
  split; intros Hinit Hserve.
  - unfold Gen.async_with, Gen.aenter, Generators.MainFixed.lifespan,
      Logging.info, Logging.error in *.
    unfold Eff.exec in *. cbn in *. unfold_eff.
    unfold Eff.bind, Eff.emit in Hserve. cbn in Hserve.
    rewrite Hinit. cbn. unfold_eff. rewrite Hserve.
    unfold Gen.aexit. cbn. reflexivity.
  - unfold Gen.async_with, Gen.aenter, Generators.Main.lifespan,
      Generators.Main.banner, Structlog.info, Structlog.error in *.
    unfold Eff.exec in *. cbn in *. unfold_eff.
    unfold Eff.bind, Eff.emit in Hserve. cbn in Hserve.
    rewrite Hinit. cbn. unfold_eff. rewrite Hserve.
    unfold Gen.aexit. cbn. reflexivity.
Qed.

End GeneratorRuns.

Lemma serve_failure_skips_shutdown_witness :
  Gen.async_with (Generators.MainFixed.lifespan (Eff.ret tt) (Eff.ret tt))
                 database_down fresh_world
  = (Eff.Raised connection_refused,
     Eff.exec (Logging.info "Starting Flowlytix Subscription Server" ;;
               Logging.info "Database initialized successfully" ;;
               Logging.info "Application startup completed")%eff
              fresh_world)
  /\ Gen.async_with (Generators.Main.lifespan (Eff.ret tt) (Eff.ret tt))
                    database_down fresh_world
     = (Eff.Raised connection_refused,
        Eff.exec (Structlog.info "Starting Flowlytix Subscription Server"
                    [("version", "1.0.0")] ;;
                  Structlog.info "Database initialized successfully" [] ;;
                  Structlog.info "Application startup completed" [])%eff
                 fresh_world).
Proof.
  split.
  - exact (proj1 (serve_failure_skips_shutdown
                    (Eff.ret tt) (Eff.ret tt) database_down
                    connection_refused fresh_world _ _)
                 eq_refl eq_refl).
  - exact (proj2 (serve_failure_skips_shutdown
                    (Eff.ret tt) (Eff.ret tt) database_down
                    connection_refused fresh_world _ _)
                 eq_refl eq_refl).
Defined.
